(** * Sewa: the vitals monitor (src/pages/VitalsMonitor.tsx)

    A shallow embedding of the [VitalsMonitor] React component: the vitals
    data model, the critical-state detector [isCritical], the bounded
    history buffer, the telemetry tick, the alert generator
    [generateAndSendAlert] and the connect / disconnect handlers, followed
    by the properties the specification states about them.

    Conventions of the embedding.
    - A JavaScript [number] holding a vital sign is an integer ([Z]); the
      data model of the specification says so and the simulator only ever
      produces integers.
    - [useState] cells and [useRef] cells are the fields of the record
      [State]; a setter call is a record update.
    - An [async] function is split at its [await]: the part before it runs
      inside the event that calls the function and leaves a pending request
      behind, the part after it runs when the request settles.
    - Everything the component receives from outside (a click, a timer, a
      [Math.random()] draw, the clock, the outcome of the generation call)
      is an explicit input.
    - Events are handled one at a time and React renders between two of
      them, so a handler or an effect reads the cells as the previous
      event left them: the closure it runs in is the one of the latest
      render. *)

From Stdlib Require Import ZArith QArith Qround Qabs Qpower Lqa Lia Bool.
From Stdlib Require Import String DecimalString.
From stdpp Require Import base list strings gmap.

Local Open Scope Z_scope.

(** ** Data model (lines 17-29) *)

Inductive ConnectionStatus : Type :=
  | disconnected
  | connecting
  | connected
  | error.

Record BloodPressure : Type := mkBP {
  systolic : Z;
  diastolic : Z
}.

Record Vitals : Type := mkVitals {
  hr : Z;
  bp : BloodPressure;
  spo2 : Z
}.

(** [VitalsWithTimestamp extends Vitals]: the reading's fields, spread, and
    a [timestamp]. *)
Record VitalsWithTimestamp : Type := mkEntry {
  reading : Vitals;
  timestamp : string
}.

Definition MAX_HISTORY_LENGTH : Z := 30.

(** The initial value of the [vitals] cell, which [handleConnect] restores:
    [{ hr: 0, bp: { systolic: 0, diastolic: 0 }, spo2: 0 }]. *)
Definition placeholderVitals : Vitals := mkVitals 0 (mkBP 0 0) 0.

(** ** Critical-state detector (lines 134-137) *)

Definition isCritical (v : Vitals) : bool :=
  if (hr v =? 0) && (spo2 v =? 0) then false
  else (hr v <? 50) || (hr v >? 130) || (systolic (bp v) >? 180)
       || (diastolic (bp v) >? 120) || (spo2 v <? 90).

(** The thresholds as the specification words them. *)
Definition outsideThresholds (v : Vitals) : Prop :=
  hr v < 50 \/ hr v > 130 \/ systolic (bp v) > 180
  \/ diastolic (bp v) > 120 \/ spo2 v < 90.

(** ** History buffer (lines 217-222) *)

(** [Array.prototype.slice(start)] with its end omitted: a negative [start]
    counts from the end, and the result is clamped to the array. *)
Definition slice {A : Type} (start : Z) (l : list A) : list A :=
  let len := Z.of_nat (length l) in
  let k := if start <? 0 then Z.max (len + start) 0 else Z.min start len in
  drop (Z.to_nat k) l.

(** The updater passed to [setVitalsHistory]. *)
Definition pushHistory (prevHistory : list VitalsWithTimestamp)
    (newHistoryEntry : VitalsWithTimestamp) : list VitalsWithTimestamp :=
  let updatedHistory := prevHistory ++ [newHistoryEntry] in
  if Z.of_nat (length updatedHistory) >? MAX_HISTORY_LENGTH
  then slice (Z.of_nat (length updatedHistory) - MAX_HISTORY_LENGTH) updatedHistory
  else updatedHistory.

(** ** Telemetry simulator (lines 205-209) *)

(** The values of binary64, the format of a JavaScript [number]:
    [m * 2^e] with a 53-bit significand. *)
Definition binary64 (q : Q) : Prop :=
  exists m e : Z,
    Z.abs m < 2 ^ 53 /\ -1074 <= e <= 971 /\ (q == inject_Z m * 2 ^ e)%Q.

(** The four [Math.random()] draws of one tick, in the order the object
    literal evaluates them. *)
Record Draws : Type := mkDraws {
  draw_hr : Q;
  draw_systolic : Q;
  draw_diastolic : Q;
  draw_spo2 : Q
}.

(** What [Math.random()] may return: a binary64 in [0, 1). *)
Definition unitInterval (r : Q) : Prop :=
  binary64 r /\ (0 <= r)%Q /\ (r < 1)%Q.

Definition validDraws (d : Draws) : Prop :=
  unitInterval (draw_hr d) /\ unitInterval (draw_systolic d)
  /\ unitInterval (draw_diastolic d) /\ unitInterval (draw_spo2 d).

(** ** Component state (lines 98-110) *)

Record State : Type := mkState {
  connectionStatus : ConnectionStatus;
  vitals : Vitals;
  vitalsHistory : list VitalsWithTimestamp;
  isSendingAlert : bool;
  alertMessage : option string;      (* [None] is [null] / [undefined] *)
  zoomDomain : string * string;
  refAreaLeft : string;
  refAreaRight : string;
  autoAlertSentRef : bool            (* [autoAlertSentRef.current] *)
}.

Definition fullRange : string * string := ("dataMin"%string, "dataMax"%string).

(** The state of a freshly mounted component. *)
Definition initialState : State :=
  mkState disconnected placeholderVitals [] false None fullRange
          ""%string ""%string false.

Definition setConnectionStatus (x : ConnectionStatus) (s : State) : State :=
  mkState x (vitals s) (vitalsHistory s) (isSendingAlert s) (alertMessage s)
          (zoomDomain s) (refAreaLeft s) (refAreaRight s) (autoAlertSentRef s).

Definition setVitals (x : Vitals) (s : State) : State :=
  mkState (connectionStatus s) x (vitalsHistory s) (isSendingAlert s)
          (alertMessage s) (zoomDomain s) (refAreaLeft s) (refAreaRight s)
          (autoAlertSentRef s).

(** [setVitalsHistory] takes an updater, as at its call site in the tick;
    [handleConnect] passes a constant one. *)
Definition setVitalsHistory
    (f : list VitalsWithTimestamp -> list VitalsWithTimestamp) (s : State) : State :=
  mkState (connectionStatus s) (vitals s) (f (vitalsHistory s))
          (isSendingAlert s) (alertMessage s) (zoomDomain s) (refAreaLeft s)
          (refAreaRight s) (autoAlertSentRef s).

Definition setIsSendingAlert (x : bool) (s : State) : State :=
  mkState (connectionStatus s) (vitals s) (vitalsHistory s) x (alertMessage s)
          (zoomDomain s) (refAreaLeft s) (refAreaRight s) (autoAlertSentRef s).

Definition setAlertMessage (x : option string) (s : State) : State :=
  mkState (connectionStatus s) (vitals s) (vitalsHistory s) (isSendingAlert s)
          x (zoomDomain s) (refAreaLeft s) (refAreaRight s) (autoAlertSentRef s).

Definition setZoomDomain (x : string * string) (s : State) : State :=
  mkState (connectionStatus s) (vitals s) (vitalsHistory s) (isSendingAlert s)
          (alertMessage s) x (refAreaLeft s) (refAreaRight s)
          (autoAlertSentRef s).

Definition setRefAreaLeft (x : string) (s : State) : State :=
  mkState (connectionStatus s) (vitals s) (vitalsHistory s) (isSendingAlert s)
          (alertMessage s) (zoomDomain s) x (refAreaRight s)
          (autoAlertSentRef s).

Definition setRefAreaRight (x : string) (s : State) : State :=
  mkState (connectionStatus s) (vitals s) (vitalsHistory s) (isSendingAlert s)
          (alertMessage s) (zoomDomain s) (refAreaLeft s) x
          (autoAlertSentRef s).

Definition setAutoAlertSentRef (x : bool) (s : State) : State :=
  mkState (connectionStatus s) (vitals s) (vitalsHistory s) (isSendingAlert s)
          (alertMessage s) (zoomDomain s) (refAreaLeft s) (refAreaRight s) x.

(** ** What a handler asks of the browser *)

(** A handler returns the new state and the calls it made to the outside,
    in order. [GenerateContent] is the awaited [ai.models.generateContent]
    call; it carries [isManual], the one variable its continuation reads
    from the closure. *)
Inductive Effect : Type :=
  | ShowNotification (title body : string)
  | GenerateContent (isManual : bool) (prompt : string)
  | SetTimeout2500.

(** How an awaited generation settles: [response.text], or a rejection. *)
Inductive Outcome : Type :=
  | Fulfilled (text : option string)
  | Rejected.

Definition isConnected (c : ConnectionStatus) : bool :=
  match c with connected => true | _ => false end.

Definition isDisconnected (c : ConnectionStatus) : bool :=
  match c with disconnected => true | _ => false end.

(** JavaScript truthiness of a string, and of a [string | null]. *)
Definition truthy (x : string) : bool :=
  match x with EmptyString => false | _ => true end.

Definition truthyMessage (x : option string) : bool :=
  match x with Some m => truthy m | None => false end.

(** An integer inside a template literal. *)
Definition show (z : Z) : string := NilZero.string_of_int (Z.to_int z).

(** ** Closure bodies as programs *)

(** A closure of [VitalsMonitor] is created inside the render: its body
    can use its argument, read the cells and refs of the component and
    call their setters. To state what a body reads and writes, the bodies
    concerned are also kept as syntax, with a semantics that hands them
    the whole component state. *)

Inductive Num : Type :=
  | NumLit (z : Z)
  | ArgHr                      (* v.hr *)
  | ArgSystolic                (* v.bp.systolic *)
  | ArgDiastolic               (* v.bp.diastolic *)
  | ArgSpo2                    (* v.spo2 *)
  | CellHr                     (* vitals.hr *)
  | CellSystolic               (* vitals.bp.systolic *)
  | CellDiastolic              (* vitals.bp.diastolic *)
  | CellSpo2.                  (* vitals.spo2 *)

Inductive Cond : Type :=
  | CondLit (b : bool)
  | StrictEq (a b : Num)       (* a === b *)
  | Less (a b : Num)           (* a < b *)
  | Greater (a b : Num)        (* a > b *)
  | AndAlso (a b : Cond)       (* a && b *)
  | OrElse (a b : Cond)        (* a || b *)
  | Negate (a : Cond)          (* !a *)
  | CellIsSendingAlert         (* isSendingAlert *)
  | CellIsConnected            (* connectionStatus === 'connected' *)
  | RefAutoAlertSent.          (* autoAlertSentRef.current *)

Inductive Stmt : Type :=
  | IfReturn (c : Cond) (value : option Cond)   (* if (c) return value; *)
  | Return (value : Cond)                       (* return value; *)
  | CallSetIsSendingAlert (b : Cond)            (* setIsSendingAlert(b); *)
  | CallSetAlertMessageNull                     (* setAlertMessage(null); *)
  | AssignAutoAlertSentRef (b : Cond).          (* autoAlertSentRef.current = b; *)

Inductive Completion : Type :=
  | Returns (b : bool)
  | ReturnsUndefined.

(** A cell is read as the render that made the closure saw it ([seen]); a
    ref is read as it is now ([s]). *)
Definition evalNum (v : Vitals) (seen : State) (n : Num) : Z :=
  match n with
  | NumLit z => z
  | ArgHr => hr v
  | ArgSystolic => systolic (bp v)
  | ArgDiastolic => diastolic (bp v)
  | ArgSpo2 => spo2 v
  | CellHr => hr (vitals seen)
  | CellSystolic => systolic (bp (vitals seen))
  | CellDiastolic => diastolic (bp (vitals seen))
  | CellSpo2 => spo2 (vitals seen)
  end.

Fixpoint evalCond (v : Vitals) (seen s : State) (c : Cond) : bool :=
  match c with
  | CondLit b => b
  | StrictEq a b => evalNum v seen a =? evalNum v seen b
  | Less a b => evalNum v seen a <? evalNum v seen b
  | Greater a b => evalNum v seen a >? evalNum v seen b
  | AndAlso a b => evalCond v seen s a && evalCond v seen s b
  | OrElse a b => evalCond v seen s a || evalCond v seen s b
  | Negate a => negb (evalCond v seen s a)
  | CellIsSendingAlert => isSendingAlert seen
  | CellIsConnected => isConnected (connectionStatus seen)
  | RefAutoAlertSent => autoAlertSentRef s
  end.

Fixpoint exec (body : list Stmt) (v : Vitals) (seen s : State)
    : Completion * State :=
  match body with
  | [] => (ReturnsUndefined, s)
  | IfReturn c value :: rest =>
      if evalCond v seen s c
      then (match value with
            | Some r => Returns (evalCond v seen s r)
            | None => ReturnsUndefined
            end, s)
      else exec rest v seen s
  | Return value :: _ => (Returns (evalCond v seen s value), s)
  | CallSetIsSendingAlert b :: rest =>
      exec rest v seen (setIsSendingAlert (evalCond v seen s b) s)
  | CallSetAlertMessageNull :: rest => exec rest v seen (setAlertMessage None s)
  | AssignAutoAlertSentRef b :: rest =>
      exec rest v seen (setAutoAlertSentRef (evalCond v seen s b) s)
  end.

(** A call of a closure in the state [s] of the latest render. *)
Definition callBody (body : list Stmt) (v : Vitals) (s : State)
    : Completion * State :=
  exec body v s s.

(** What a body mentions: nothing but literals and its argument. *)
Definition numOfArgument (n : Num) : bool :=
  match n with
  | NumLit _ | ArgHr | ArgSystolic | ArgDiastolic | ArgSpo2 => true
  | CellHr | CellSystolic | CellDiastolic | CellSpo2 => false
  end.

Fixpoint condOfArgument (c : Cond) : bool :=
  match c with
  | CondLit _ => true
  | StrictEq a b | Less a b | Greater a b => numOfArgument a && numOfArgument b
  | AndAlso a b | OrElse a b => condOfArgument a && condOfArgument b
  | Negate a => condOfArgument a
  | CellIsSendingAlert | CellIsConnected | RefAutoAlertSent => false
  end.

Definition stmtOfArgument (st : Stmt) : bool :=
  match st with
  | IfReturn c value =>
      condOfArgument c
      && match value with Some r => condOfArgument r | None => true end
  | Return value => condOfArgument value
  | CallSetIsSendingAlert _ | CallSetAlertMessageNull
  | AssignAutoAlertSentRef _ => false
  end.

(** The body of [isCritical], lines 135 and 136. *)
Definition isCritical_body : list Stmt :=
  [ IfReturn (AndAlso (StrictEq ArgHr (NumLit 0)) (StrictEq ArgSpo2 (NumLit 0)))
             (Some (CondLit false));
    Return (OrElse (OrElse (OrElse (OrElse (Less ArgHr (NumLit 50))
                                           (Greater ArgHr (NumLit 130)))
                                   (Greater ArgSystolic (NumLit 180)))
                           (Greater ArgDiastolic (NumLit 120)))
                   (Less ArgSpo2 (NumLit 90))) ].

(** The first two statements of [generateAndSendAlert], lines 146 and
    147: a body that does read and write the component. *)
Definition alertGuard_body : list Stmt :=
  [ IfReturn CellIsSendingAlert None;
    CallSetIsSendingAlert (CondLit true) ].

(** ** Vital cards (lines 139-143 and 302-312) *)

Definition getVitalCardClass (value min max : Z) : string :=
  if value =? 0 then "border-slate-300"%string
  else if (value <? min) || (value >? max)
       then "border-red-500 bg-red-50 animate-pulse"%string
       else "border-green-500"%string.

(** The three cards of a connected monitor, with the bounds their
    [className] passes; the blood-pressure card is styled by the systolic
    value alone. *)
Definition heartRateCard (v : Vitals) : string := getVitalCardClass (hr v) 50 130.

Definition bloodPressureCard (v : Vitals) : string :=
  getVitalCardClass (systolic (bp v)) 0 180.

Definition oxygenCard (v : Vitals) : string := getVitalCardClass (spo2 v) 90 101.

Definition isAlarmed (cardClass : string) : bool :=
  String.eqb cardClass "border-red-500 bg-red-50 animate-pulse".

(** ** Notification click (src/service-worker.js, lines 55-77) *)

(** A window client, as far as the handler looks at it. *)
Record WindowClient : Type := mkClient {
  clientId : string;
  focused : bool
}.

Inductive ClickAction : Type :=
  | NavigateAndFocus (client : WindowClient) (url : string)
  | OpenWindow (url : string).

(** [originHref] is [new URL(self.location.origin).href]; [dataUrl] is
    [event.notification.data.url], [None] when it is absent. *)
Definition urlToOpen (originHref : string) (dataUrl : option string) : string :=
  String.append originHref (default ""%string dataUrl).

(** The [for] loop over [clientList]: the client kept is the last focused
    one, and [clientList[0]] when none is focused. *)
Definition chooseClient (first : WindowClient) (clientList : list WindowClient)
    : WindowClient :=
  foldl (fun client c => if focused c then c else client) first clientList.

Definition notificationclick (originHref : string) (dataUrl : option string)
    (clientList : list WindowClient) : ClickAction :=
  match clientList with
  | first :: _ =>
      NavigateAndFocus (chooseClient first clientList) (urlToOpen originHref dataUrl)
  | [] => OpenWindow (urlToOpen originHref dataUrl)
  end.

(** The [data.url] that [generateAndSendAlert] gives its notification
    (VitalsMonitor.tsx, line 172). *)
Definition vitalsAlertUrl : string := "#/vitals".

(** ** Routing and the login gate (src/App.tsx) *)

Inductive Page : Type :=
  | Dashboard
  | Appointments
  | Medications
  | Records
  | UploadRecord
  | TranslatedRecord (extractedText : string)
  | Profile
  | SymptomInput
  | Recommendations (symptoms : string)
  | VitalsMonitor
  | MentalHealth
  | DrugPrices.

Record AppState : Type := mkApp {
  route : string;
  isAuthenticated : bool;
  symptomsForRec : string;
  extractedRecordText : string
}.

(** [renderPage] (lines 57-84): a [switch] on the route. *)
Definition renderPage (a : AppState) : Page :=
  let r := route a in
  if String.eqb r "#/appointments" then Appointments
  else if String.eqb r "#/medications" then Medications
  else if String.eqb r "#/records" then Records
  else if String.eqb r "#/upload-record" then UploadRecord
  else if String.eqb r "#/translated-record"
       then TranslatedRecord (extractedRecordText a)
  else if String.eqb r "#/profile" then Profile
  else if String.eqb r "#/symptoms" then SymptomInput
  else if String.eqb r "#/recommendations" then Recommendations (symptomsForRec a)
  else if String.eqb r "#/vitals" then VitalsMonitor
  else if String.eqb r "#/mental-health" then MentalHealth
  else if String.eqb r "#/drug-prices" then DrugPrices
  else Dashboard.

Inductive Screen : Type :=
  | AuthScreen
  | LayoutWith (page : Page).

(** What [App] returns (lines 86-96). *)
Definition render (a : AppState) : Screen :=
  if isAuthenticated a then LayoutWith (renderPage a) else AuthScreen.

(** The browser as [App] uses it: [localStorage] and [window.location.hash]. *)
Record Browser : Type := mkBrowser {
  localStorage : gmap string string;
  locationHash : string
}.

(** [!!localStorage.getItem(key)]: a missing item and an empty one are
    both falsy. *)
Definition hasItem (key : string) (storage : gmap string string) : bool :=
  match storage !! key with Some v => truthy v | None => false end.

(** The state of a freshly mounted [App] (lines 19-22). *)
Definition mountApp (b : Browser) : AppState :=
  mkApp (locationHash b) (hasItem "authToken" (localStorage b)) ""%string ""%string.

Definition handleHashChange (b : Browser) (a : AppState) : AppState :=
  mkApp (locationHash b) (isAuthenticated a) (symptomsForRec a)
        (extractedRecordText a).

Definition handleLogin (b : Browser) (a : AppState) : Browser * AppState :=
  (mkBrowser (<["authToken"%string := "mock-firebase-token"%string]> (localStorage b))
             (locationHash b),
   mkApp (route a) true (symptomsForRec a) (extractedRecordText a)).

Definition handleLogout (b : Browser) (a : AppState) : Browser * AppState :=
  (mkBrowser (delete "authToken"%string (localStorage b)) "#/"%string,
   mkApp (route a) false (symptomsForRec a) (extractedRecordText a)).



(** ** Inputs for the examples *)

(** A multiplication that never rounds: exact arithmetic is one admissible
    rounding. *)
Definition exactProduct (q : Q) : Q := q.

(** A translation table that answers every key with the key. *)
Definition untranslated (key : string) : string := key.

(** Four draws of 0 (the reading 45, 85/55, 88, which is critical) and four
    draws of 1/2 (the reading 93, 138/93, 94, which is not). *)
Definition lowDraws : Draws := mkDraws 0 0 0 0.

Definition midDraws : Draws := mkDraws (1 # 2) (1 # 2) (1 # 2) (1 # 2).

Section Component.

(** [t], the translation function of [useTranslations] (lib/i18n is not
    among the sources): any map from keys to localized strings. *)
Variable t : string -> string.

(** The rounding of a binary64 multiplication: [x * y] in JavaScript is
    [rnd] of the exact product. *)
Variable rnd : Q -> Q.

(** *** The interval callback (lines 204-224) *)

Definition simulateVitals (d : Draws) : Vitals :=
  {| hr := Qfloor (rnd (draw_hr d * inject_Z (140 - 45 + 1))) + 45;
     bp := {| systolic :=
                Qfloor (rnd (draw_systolic d * inject_Z (190 - 85 + 1))) + 85;
              diastolic :=
                Qfloor (rnd (draw_diastolic d * inject_Z (130 - 55 + 1))) + 55 |};
     spo2 := Qfloor (rnd (draw_spo2 d * inject_Z (100 - 88 + 1))) + 88 |}.

(** [now] is the clock reading
    [new Date().toLocaleTimeString([], {minute, second})]. *)
Definition tick (d : Draws) (now : string) (s : State) : State * list Effect :=
  let newVitals := simulateVitals d in
  let s := setVitals newVitals s in
  let newHistoryEntry := mkEntry newVitals now in
  (setVitalsHistory (fun prevHistory => pushHistory prevHistory newHistoryEntry) s,
   []).

(** *** generateAndSendAlert (lines 145-199) *)

Definition notificationTitle : string := "Critical Vitals Alert"%string.

Definition notificationBody (currentVitals : Vitals) : string :=
  if (hr currentVitals <? 50) || (hr currentVitals >? 130) then
    String.concat "" ["Critical Heart Rate: "; show (hr currentVitals); " BPM."]%string
  else if spo2 currentVitals <? 90 then
    String.concat "" ["Low Oxygen Saturation: "; show (spo2 currentVitals); "%."]%string
  else if (systolic (bp currentVitals) >? 180)
          || (diastolic (bp currentVitals) >? 120) then
    String.concat "" ["High Blood Pressure: "; show (systolic (bp currentVitals));
                      "/"; show (diastolic (bp currentVitals)); " mmHg."]%string
  else "One or more vitals are critical. Tap to view."%string.

Definition alertPrompt (currentVitals : Vitals) (isManual : bool) : string :=
  let vitalsString :=
    String.concat ""
      ["Heart Rate: "; show (hr currentVitals); " BPM, Blood Pressure: ";
       show (systolic (bp currentVitals)); "/";
       show (diastolic (bp currentVitals)); " mmHg, SpO2: ";
       show (spo2 currentVitals); "%"]%string in
  let manualTriggerText :=
    if isManual then "I am manually triggering an emergency alert."%string
    else "My vital signs have reached a critical level:"%string in
  String.concat ""
    ["Act as an emergency alert system. My name is Alex. "; manualTriggerText;
     " "; vitalsString;
     ". Please compose a brief, urgent SMS message to my emergency contact, Jane Doe, informing her of the situation and that she needs to check on me immediately. Include the critical readings."]%string.

(** The invocation up to its [await]. [granted] is the browser's answer
    to the notification test of line 163; the notification it then asks
    the service worker for is recorded where it is requested. *)
Definition generateAndSendAlert (granted : bool) (currentVitals : Vitals)
    (isManual : bool) (s : State) : State * list Effect :=
  if isSendingAlert s then (s, [])
  else
    let s := setIsSendingAlert true s in
    let s := if isManual then setAlertMessage None s else s in
    let notification :=
      if granted
      then [ShowNotification notificationTitle (notificationBody currentVitals)]
      else [] in
    (s, notification ++ [GenerateContent isManual (alertPrompt currentVitals isManual)]).

(** The invocation from its [await] on: the rest of the [try] block when
    the call is fulfilled, the [catch] block when it is rejected, and the
    [finally] block in both cases. It runs on the state of the moment the
    call settles; the effects it returns are the calls it makes (none: the
    [console.error] of line 194 is left out). *)
Definition generateAndSendAlert_resume (isManual : bool) (o : Outcome)
    (s : State) : State * list Effect :=
  let s :=
    match o with
    | Fulfilled text =>
        let s := setAlertMessage text s in
        if negb isManual then setAutoAlertSentRef true s else s
    | Rejected => setAlertMessage (Some (t "alertGenerationError"%string)) s
    end in
  (setIsSendingAlert false s, []).

(** *** The alerting effect (lines 237-241) *)

Definition autoAlertEffect (granted : bool) (s : State) : State * list Effect :=
  if isConnected (connectionStatus s) && isCritical (vitals s)
     && negb (autoAlertSentRef s) && negb (isSendingAlert s)
  then generateAndSendAlert granted (vitals s) false s
  else (s, []).

(** *** Chart zoom (lines 112-131 and 271-273) *)

Definition findIndex (label : string) (h : list VitalsWithTimestamp) : option nat :=
  fst <$> list_find (fun d => String.eqb (timestamp d) label = true) h.

Definition handleZoom (s : State) : State * list Effect :=
  let h := vitalsHistory s in
  let s1 :=
    if truthy (refAreaLeft s) && truthy (refAreaRight s) then
      match findIndex (refAreaLeft s) h, findIndex (refAreaRight s) h with
      | Some leftIndex, Some rightIndex =>
          let from := Nat.min leftIndex rightIndex in
          let to := Nat.max leftIndex rightIndex in
          if negb (from =? to)%nat then
            match h !! from, h !! to with
            | Some a, Some b => setZoomDomain (timestamp a, timestamp b) s
            | _, _ => s
            end
          else s
      | _, _ => s
      end
    else s in
  (setRefAreaRight ""%string (setRefAreaLeft ""%string s1), []).

Definition resetZoom (s : State) : State := setZoomDomain fullRange s.

(** [onMouseDown] and [onMouseMove]; [e] is [None] for a null event,
    otherwise its [activeLabel] (an absent label reads as the empty
    string, which is as falsy). *)
Definition onMouseDown (e : option string) (s : State) : State * list Effect :=
  match e with
  | Some activeLabel => (setRefAreaLeft activeLabel s, [])
  | None => (s, [])
  end.

Definition onMouseMove (e : option string) (s : State) : State * list Effect :=
  match e with
  | Some activeLabel =>
      if truthy (refAreaLeft s) then (setRefAreaRight activeLabel s, [])
      else (s, [])
  | None => (s, [])
  end.

(** *** Connect and disconnect (lines 244-258) *)

Definition handleConnect (s : State) : State * list Effect :=
  let s := setConnectionStatus connecting s in
  let s := setAlertMessage None s in
  let s := setAutoAlertSentRef false s in
  let s := setVitals placeholderVitals s in
  let s := setVitalsHistory (fun _ => []) s in
  let s := resetZoom s in
  (s, [SetTimeout2500]).

Definition handleDisconnect (s : State) : State * list Effect :=
  (setConnectionStatus disconnected s, []).

(** ** The event loop around the component *)

(** Besides the component's cells the page holds: the invocations of
    [generateAndSendAlert] suspended at their [await] (each is its
    captured [isManual]), the [setTimeout] callbacks of [handleConnect]
    not yet run, and the notification permission. *)
Record World : Type := mkWorld {
  component : State;
  pendingGenerations : list bool;
  connectTimers : nat;
  notificationsGranted : bool
}.

Definition initialWorld : World := mkWorld initialState [] 0%nat false.

Definition withComponent (s : State) (w : World) : World :=
  mkWorld s (pendingGenerations w) (connectTimers w) (notificationsGranted w).

(** The browser's side of one call. *)
Definition perform (w : World) (e : Effect) : World :=
  match e with
  | ShowNotification _ _ => w
  | GenerateContent isManual _ =>
      mkWorld (component w) (pendingGenerations w ++ [isManual])
              (connectTimers w) (notificationsGranted w)
  | SetTimeout2500 =>
      mkWorld (component w) (pendingGenerations w) (S (connectTimers w))
              (notificationsGranted w)
  end.

(** Run a handler on the component and carry out its calls. *)
Definition dispatch (h : State -> State * list Effect) (w : World)
    : World * list Effect :=
  let '(s, es) := h (component w) in
  (foldl perform (withComponent s w) es, es).

Inductive Event : Type :=
  | ClickConnect
  | ClickDisconnect
  | ConnectTimerFires
  | IntervalFires (d : Draws) (now : string)
  | ClickSendAlert
  | GenerationSettles (i : nat) (o : Outcome)
  | ChartMouseDown (e : option string)
  | ChartMouseMove (e : option string)
  | ChartMouseUp
  | ClickResetZoom
  | PermissionChanges (granted : bool).

(** The charts and their handlers exist when line 345 renders them. *)
Definition chartsShown (s : State) : bool :=
  isConnected (connectionStatus s) && (1 <? length (vitalsHistory s))%nat.

(** The handler of one event. An event whose source is not there (a
    button that is not rendered, a timer that is not set, a request that
    is not pending) does not happen: the world stays as it is.
    - The connect button is rendered when disconnected, the disconnect
      button otherwise (lines 292-296).
    - The interval of lines 204-224 runs exactly while the status is
      [connected]: the effect sets it on entering that status and clears
      it on leaving.
    - The alert button is rendered when connected and [alertMessage] is
      falsy (lines 299, 320); its [disabled] attribute is not relied on,
      the function tests [isSendingAlert] itself. *)
Definition handle (ev : Event) (w : World) : World * list Effect :=
  let s := component w in
  match ev with
  | ClickConnect =>
      if isDisconnected (connectionStatus s) then dispatch handleConnect w
      else (w, [])
  | ClickDisconnect =>
      if negb (isDisconnected (connectionStatus s))
      then dispatch handleDisconnect w
      else (w, [])
  | ConnectTimerFires =>
      match connectTimers w with
      | O => (w, [])
      | S n =>
          (mkWorld (setConnectionStatus connected s) (pendingGenerations w) n
                   (notificationsGranted w), [])
      end
  | IntervalFires d now =>
      if isConnected (connectionStatus s) then dispatch (tick d now) w
      else (w, [])
  | ClickSendAlert =>
      if isConnected (connectionStatus s) && negb (truthyMessage (alertMessage s))
      then dispatch (generateAndSendAlert (notificationsGranted w) (vitals s) true) w
      else (w, [])
  | GenerationSettles i o =>
      match pendingGenerations w !! i with
      | Some isManual =>
          dispatch (generateAndSendAlert_resume isManual o)
            (mkWorld s (delete i (pendingGenerations w)) (connectTimers w)
                     (notificationsGranted w))
      | None => (w, [])
      end
  | ChartMouseDown e =>
      if chartsShown s then dispatch (onMouseDown e) w else (w, [])
  | ChartMouseMove e =>
      if chartsShown s then dispatch (onMouseMove e) w else (w, [])
  | ChartMouseUp =>
      if chartsShown s then dispatch handleZoom w else (w, [])
  | ClickResetZoom =>
      if chartsShown s && negb (String.eqb (fst (zoomDomain s)) "dataMin")
      then dispatch (fun s => (resetZoom s, [])) w
      else (w, [])
  | PermissionChanges granted =>
      (mkWorld s (pendingGenerations w) (connectTimers w) granted, [])
  end.

(** One turn of the event loop: the handler, then the render it causes,
    whose alerting effect sees the new state. (The effect's guard reads
    nothing but its dependencies and [autoAlertSentRef]; running it after
    a turn that changed none of them finds the guard as false as the
    last run left it.) *)
Definition step (w : World) (ev : Event) : World * list Effect :=
  let '(w1, es1) := handle ev w in
  let '(w2, es2) := dispatch (autoAlertEffect (notificationsGranted w1)) w1 in
  (w2, es1 ++ es2).

(** A run: the world after the events and every call made on the way. *)
Fixpoint run (w : World) (evs : list Event) : World * list Effect :=
  match evs with
  | [] => (w, [])
  | ev :: evs' =>
      let '(w1, es1) := step w ev in
      let '(w2, es2) := run w1 evs' in
      (w2, es1 ++ es2)
  end.

Definition isAutomaticGeneration (e : Effect) : bool :=
  match e with GenerateContent false _ => true | _ => false end.

Definition isGeneration (e : Effect) : bool :=
  match e with GenerateContent _ _ => true | _ => false end.

(** How many times a run began the automatic alert flow. *)
Definition automaticGenerations (log : list Effect) : nat :=
  length (List.filter isAutomaticGeneration log).

Definition generations (log : list Effect) : nat :=
  length (List.filter isGeneration log).



(** At most one invocation is suspended, and none while
    [isSendingAlert] is false. *)
Definition singleFlight (w : World) : Prop :=
  (length (pendingGenerations w) <= 1)%nat
  /\ (isSendingAlert (component w) = false -> pendingGenerations w = []).

(** The fallback text of [notificationBody]. *)
Definition genericBody : string := "One or more vitals are critical. Tap to view.".

(** The selection of [handleZoom] dragged the other way. *)
Definition swapSelection (s : State) : State :=
  setRefAreaRight (refAreaLeft s) (setRefAreaLeft (refAreaRight s) s).

(** The ranges of the simulator, as bounds on a reading. *)
Definition inRange (v : Vitals) : Prop :=
  45 <= hr v <= 140
  /\ 85 <= systolic (bp v) <= 190
  /\ 55 <= diastolic (bp v) <= 130
  /\ 88 <= spo2 v <= 100.

(** Every tick of the stretch draws what [Math.random()] can return. *)
Definition validTicks (evs : list Event) : Prop :=
  Forall (fun ev => forall d now, ev = IntervalFires d now -> validDraws d) evs.

(** A stretch in which nobody clicks the connect or the disconnect button
    and no generation settles. *)
Definition quiet (evs : list Event) : Prop :=
  Forall (fun ev => ev <> ClickConnect /\ ev <> ClickDisconnect
                    /\ forall i o, ev <> GenerationSettles i o)
         evs.

(** The alert message the page shows (lines 299, 320 and 328-333): the
    [alertMessage] cell, when the monitor is connected and the cell is
    truthy; otherwise none. *)
Definition shownMessage (s : State) : option string :=
  if isConnected (connectionStatus s) && truthyMessage (alertMessage s)
  then alertMessage s
  else None.

Definition isManualGeneration (e : Effect) : bool :=
  match e with GenerateContent true _ => true | _ => false end.

Definition manualGenerations (log : list Effect) : nat :=
  length (List.filter isManualGeneration log).

(** [isSendingAlert] is true exactly while one invocation is suspended. *)
Definition flagMatchesFlight (w : World) : Prop :=
  (pendingGenerations w = [] /\ isSendingAlert (component w) = false)
  \/ (exists isManual, pendingGenerations w = [isManual]
                       /\ isSendingAlert (component w) = true).

(** The displayed reading is the newest entry of the history, or the
    placeholder when the history is empty. *)
Definition readingIsLatest (s : State) : Prop :=
  match last (vitalsHistory s) with
  | Some entry => reading entry = vitals s
  | None => vitals s = placeholderVitals
  end.

(** ** Properties *)

(** *** The detector *)

Lemma isCritical_guarded (v : Vitals) :
  hr v = 0 -> spo2 v = 0 -> isCritical v = false.
Proof.
  intros Hhr Hspo. unfold isCritical. rewrite Hhr, Hspo. reflexivity.
Qed.

Lemma isCritical_unguarded (v : Vitals) :
  ~ (hr v = 0 /\ spo2 v = 0) ->
  (isCritical v = true <-> outsideThresholds v).
Proof.
  intros Hnz. unfold isCritical, outsideThresholds.
  destruct (hr v =? 0) eqn:Ehr, (spo2 v =? 0) eqn:Espo; cbn [andb];
    try (apply Z.eqb_eq in Ehr, Espo; tauto);
    rewrite !orb_true_iff, !Z.ltb_lt, !Z.gtb_ltb, !Z.ltb_lt; lia.
Qed.

(** C1 (as amended). The guard of [isCritical] tests the heart rate and
    the SpO2 only: a reading in which both are zero is never critical,
    whatever its blood pressure, and the all-zero placeholder is one such
    reading; every other reading is critical exactly when heart rate < 50
    or > 130, systolic > 180, diastolic > 120 or SpO2 < 90. *)
Theorem isCritical_thresholds (v : Vitals) :
  (hr v = 0 /\ spo2 v = 0 -> isCritical v = false)
  /\ (~ (hr v = 0 /\ spo2 v = 0) ->
      (isCritical v = true <-> outsideThresholds v))
  /\ isCritical placeholderVitals = false.
Proof.
  split; [| split].
  - intros [Hhr Hspo]. now apply isCritical_guarded.
  - apply isCritical_unguarded.
  - reflexivity.
Qed.

Lemma evalNum_ofArgument (n : Num) (v : Vitals) (seen seen' : State) :
  numOfArgument n = true -> evalNum v seen n = evalNum v seen' n.
Proof.
  destruct n; cbn; intros Harg; (reflexivity || discriminate Harg).
Qed.

Lemma evalCond_ofArgument (c : Cond) (v : Vitals) (seen s seen' s' : State) :
  condOfArgument c = true -> evalCond v seen s c = evalCond v seen' s' c.
Proof.
  induction c as [b | a b | a b | a b | a IHa b IHb | a IHa b IHb | a IHa | | |];
    cbn; intros Harg; try discriminate Harg; try reflexivity.
  - apply andb_true_iff in Harg as [Ha Hb].
    now rewrite (evalNum_ofArgument a v seen seen'), (evalNum_ofArgument b v seen seen').
  - apply andb_true_iff in Harg as [Ha Hb].
    now rewrite (evalNum_ofArgument a v seen seen'), (evalNum_ofArgument b v seen seen').
  - apply andb_true_iff in Harg as [Ha Hb].
    now rewrite (evalNum_ofArgument a v seen seen'), (evalNum_ofArgument b v seen seen').
  - apply andb_true_iff in Harg as [Ha Hb]. now rewrite (IHa Ha), (IHb Hb).
  - apply andb_true_iff in Harg as [Ha Hb]. now rewrite (IHa Ha), (IHb Hb).
  - now rewrite (IHa Harg).
Qed.

(** A body that mentions nothing but literals and its argument returns
    the same in every component state and leaves the state as it is. *)
Lemma exec_ofArgument (body : list Stmt) (v : Vitals) (seen s seen' s' : State) :
  forallb stmtOfArgument body = true ->
  fst (exec body v seen s) = fst (exec body v seen' s')
  /\ snd (exec body v seen s) = s.
Proof.
  induction body as [| st body IH]; cbn [forallb exec]; intros Harg.
  - now split.
  - apply andb_true_iff in Harg as [Hst Hbody].
    destruct st as [c value | value | b | | b]; cbn in Hst; try discriminate Hst.
    + apply andb_true_iff in Hst as [Hc Hvalue].
      rewrite (evalCond_ofArgument c v seen s seen' s' Hc).
      destruct (evalCond v seen' s' c); [| now apply IH].
      destruct value as [r |]; cbn [fst snd]; [| now split].
      now rewrite (evalCond_ofArgument r v seen s seen' s' Hvalue).
    + cbn [fst snd]. now rewrite (evalCond_ofArgument value v seen s seen' s' Hst).
Qed.

(** The body of lines 135-136 computes [isCritical]. *)
Lemma isCritical_body_returns (v : Vitals) (s : State) :
  fst (callBody isCritical_body v s) = Returns (isCritical v).
Proof.
  unfold callBody, isCritical_body, isCritical. cbn.
  now destruct ((hr v =? 0) && (spo2 v =? 0)).
Qed.

(** The language can tell: the first statements of [generateAndSendAlert]
    read [isSendingAlert] and set it, as the embedding of that function
    does. *)
Lemma alertGuard_body_writes (granted : bool) (v : Vitals) (s : State) :
  forallb stmtOfArgument alertGuard_body = false
  /\ snd (callBody alertGuard_body v s)
     = fst (generateAndSendAlert granted v false s).
Proof.
  split; [reflexivity |].
  unfold callBody, alertGuard_body, generateAndSendAlert. cbn.
  now destruct (isSendingAlert s).
Qed.

(** C8. The body of [isCritical] mentions nothing but literals and its
    argument [v]: it reads no cell or ref and calls no setter. Hence two
    evaluations on equal readings, in whatever component states, return
    the same boolean, which is [isCritical] of the reading, and an
    evaluation leaves the component state as it found it. *)
Theorem isCritical_pure (v1 v2 : Vitals) (s1 s2 : State) :
  v1 = v2 ->
  forallb stmtOfArgument isCritical_body = true
  /\ fst (callBody isCritical_body v1 s1) = fst (callBody isCritical_body v2 s2)
  /\ snd (callBody isCritical_body v1 s1) = s1
  /\ snd (callBody isCritical_body v2 s2) = s2
  /\ fst (callBody isCritical_body v1 s1) = Returns (isCritical v1).
Proof.
  intros ->.
  assert (Harg : forallb stmtOfArgument isCritical_body = true) by reflexivity.
  split; [exact Harg |]. unfold callBody.
  split; [apply (exec_ofArgument _ v2 s1 s1 s2 s2 Harg) |].
  split; [apply (exec_ofArgument _ v2 s1 s1 s1 s1 Harg) |].
  split; [apply (exec_ofArgument _ v2 s2 s2 s2 s2 Harg) |].
  apply isCritical_body_returns.
Qed.

(** *** The history buffer *)

Lemma slice_drop {A : Type} (start : Z) (l : list A) :
  0 <= start <= Z.of_nat (length l) ->
  slice start l = drop (Z.to_nat start) l.
Proof.
  intros Hrange. unfold slice.
  destruct (start <? 0) eqn:Eneg.
  - apply Z.ltb_lt in Eneg. lia.
  - now rewrite Z.min_l by lia.
Qed.

Lemma pushHistory_below (prev : list VitalsWithTimestamp) (e : VitalsWithTimestamp) :
  Z.of_nat (length prev) < MAX_HISTORY_LENGTH ->
  pushHistory prev e = prev ++ [e].
Proof.
  intros Hlen. unfold pushHistory.
  rewrite length_app. cbn [length].
  destruct (Z.of_nat (length prev + 1) >? MAX_HISTORY_LENGTH) eqn:Egt;
    [| reflexivity].
  rewrite Z.gtb_ltb in Egt. apply Z.ltb_lt in Egt. lia.
Qed.

Lemma pushHistory_full (oldest : VitalsWithTimestamp)
    (rest : list VitalsWithTimestamp) (e : VitalsWithTimestamp) :
  Z.of_nat (length (oldest :: rest)) = MAX_HISTORY_LENGTH ->
  pushHistory (oldest :: rest) e = rest ++ [e].
Proof.
  intros Hlen. unfold pushHistory.
  rewrite length_app. cbn [length] in *.
  destruct (Z.of_nat (S (length rest) + 1) >? MAX_HISTORY_LENGTH) eqn:Egt.
  - rewrite slice_drop by (rewrite length_app; cbn [length]; lia).
    replace (Z.to_nat (Z.of_nat (S (length rest) + 1) - MAX_HISTORY_LENGTH))
      with 1%nat by lia.
    reflexivity.
  - rewrite Z.gtb_ltb in Egt. apply Z.ltb_ge in Egt. lia.
Qed.

(** C2. Appending a reading to a history of at most [MAX_HISTORY_LENGTH]
    entries gives a history of at most that length, whose last entry is
    the new reading and whose other entries are a suffix of the old
    history in their old order; a full history loses exactly its first
    entry, a shorter one loses nothing. *)
Theorem pushHistory_ring (prev : list VitalsWithTimestamp)
    (e : VitalsWithTimestamp) :
  Z.of_nat (length prev) <= MAX_HISTORY_LENGTH ->
  let h := pushHistory prev e in
  Z.of_nat (length h) <= MAX_HISTORY_LENGTH
  /\ last h = Some e
  /\ (exists kept, kept `suffix_of` prev /\ h = kept ++ [e])
  /\ (Z.of_nat (length prev) = MAX_HISTORY_LENGTH ->
      exists oldest rest, prev = oldest :: rest /\ h = rest ++ [e])
  /\ (Z.of_nat (length prev) < MAX_HISTORY_LENGTH -> h = prev ++ [e]).
Proof.
  intros Hcap h.
  destruct (Z.eq_dec (Z.of_nat (length prev)) MAX_HISTORY_LENGTH) as [Hfull | Hroom].
  - destruct prev as [| oldest rest]; [discriminate Hfull |].
    assert (Hh : h = rest ++ [e]) by (apply pushHistory_full; exact Hfull).
    rewrite Hh. repeat split.
    + rewrite length_app. cbn [length] in *. lia.
    + apply last_snoc.
    + exists rest. split; [| reflexivity]. now exists [oldest].
    + intros _. now exists oldest, rest.
    + intros Hlt. lia.
  - assert (Hh : h = prev ++ [e]) by (apply pushHistory_below; lia).
    rewrite Hh. repeat split.
    + rewrite length_app. cbn [length]. lia.
    + apply last_snoc.
    + exists prev. split; [reflexivity | reflexivity].
    + intros Hfull. contradiction.
Qed.

(** *** Connect and disconnect *)

(** C9. Whatever the state before, [handleConnect] leaves the alert
    message null, the sent-flag false, the vitals at the all-zero
    placeholder, the history empty and the zoom domain at the full
    range (and the status at [connecting]). *)
Theorem handleConnect_clean (s : State) :
  let s' := fst (handleConnect s) in
  alertMessage s' = None
  /\ autoAlertSentRef s' = false
  /\ vitals s' = placeholderVitals
  /\ vitalsHistory s' = []
  /\ zoomDomain s' = fullRange
  /\ connectionStatus s' = connecting.
Proof.
  cbn. repeat split.
Qed.


(** *** The alert generator *)

Lemma generations_app (es1 es2 : list Effect) :
  generations (es1 ++ es2) = (generations es1 + generations es2)%nat.
Proof.
  unfold generations. now rewrite List.filter_app, length_app.
Qed.


Lemma generateAndSendAlert_busy (granted : bool) (v : Vitals) (isManual : bool)
    (s : State) :
  isSendingAlert s = true ->
  generateAndSendAlert granted v isManual s = (s, []).
Proof.
  intros Hbusy. unfold generateAndSendAlert. now rewrite Hbusy.
Qed.

(** C10. An invocation that finds no generation in flight raises
    [isSendingAlert] and issues the generation call; when that call
    settles, fulfilled or rejected and in whatever state the component
    then is, the invocation ends with [isSendingAlert] false. *)
Theorem generateAndSendAlert_releases (granted : bool) (v : Vitals)
    (isManual : bool) (s : State) (o : Outcome) (later : State) :
  isSendingAlert s = false ->
  isSendingAlert (fst (generateAndSendAlert granted v isManual s)) = true
  /\ generations (snd (generateAndSendAlert granted v isManual s)) = 1%nat
  /\ isSendingAlert (fst (generateAndSendAlert_resume isManual o later)) = false.
Proof.
  intros Hidle. unfold generateAndSendAlert. rewrite Hidle.
  destruct isManual, granted, o; repeat split.
Qed.

(** C6. When the generation call of an invocation is rejected, the
    invocation ends with [alertMessage] equal to
    [t('alertGenerationError')], and over its whole course it has issued
    that one generation call and no other. *)
Theorem generateAndSendAlert_rejected (granted : bool) (v : Vitals)
    (isManual : bool) (s later : State) :
  isSendingAlert s = false ->
  let begun := generateAndSendAlert granted v isManual s in
  let ended := generateAndSendAlert_resume isManual Rejected later in
  alertMessage (fst ended) = Some (t "alertGenerationError"%string)
  /\ snd ended = []
  /\ generations (snd begun ++ snd ended) = 1%nat.
Proof.
  intros Hidle. unfold generateAndSendAlert. rewrite Hidle.
  destruct isManual, granted; repeat split.
Qed.

(** *** Runs of the event loop *)

Ltac break_match :=
  match goal with
  | H : (_, _) = (_, _) |- _ => inversion H; subst; clear H
  | H : context [if ?b then _ else _] |- _ => destruct b eqn:?
  | H : context [match ?x with _ => _ end] |- _ => destruct x eqn:?
  | |- context [if ?b then _ else _] => destruct b eqn:?
  | |- context [match ?x with _ => _ end] => destruct x eqn:?
  end.

Ltac unfold_handlers :=
  unfold handle, dispatch, handleConnect, handleDisconnect, tick,
    onMouseDown, onMouseMove, handleZoom, resetZoom, autoAlertEffect,
    generateAndSendAlert, generateAndSendAlert_resume, chartsShown;
  cbn -[alertPrompt notificationBody simulateVitals pushHistory isCritical
        findIndex String.eqb Nat.ltb Nat.eqb].

Ltac crush :=
  unfold_handlers;
  repeat (break_match;
          cbn -[alertPrompt notificationBody simulateVitals pushHistory
                isCritical findIndex String.eqb Nat.ltb Nat.eqb] in *);
  subst; try discriminate; try congruence; auto.



Lemma singleFlight_cases (w : World) :
  singleFlight w ->
  pendingGenerations w = []
  \/ (exists m, pendingGenerations w = [m])
      /\ isSendingAlert (component w) = true.
Proof.
  intros [Hlen Hidle].
  destruct (pendingGenerations w) as [| m [| m' p]] eqn:Ep; cbn in Hlen.
  - now left.
  - right. split; [now exists m |].
    destruct (isSendingAlert (component w)); [reflexivity |].
    now specialize (Hidle eq_refl).
  - lia.
Qed.

Lemma handle_singleFlight (ev : Event) (w : World) :
  singleFlight w -> singleFlight (fst (handle ev w)).
Proof.
  intros Hsf. pose proof (singleFlight_cases w Hsf) as Hcases.
  destruct w as [s p n g]. unfold singleFlight in *. cbn in Hsf, Hcases.
  destruct Hcases as [-> | [[m ->] Hbusy]].
  - destruct ev; try destruct i; crush; cbn; split; auto; discriminate.
  - destruct ev; try destruct i as [| i]; crush; cbn; split; auto;
      try discriminate; try congruence.
Qed.


Lemma effect_busy (granted : bool) (w : World) :
  isSendingAlert (component w) = true ->
  dispatch (autoAlertEffect granted) w = (w, []).
Proof.
  intros Hbusy. destruct w as [s p n g]. cbn in Hbusy.
  unfold dispatch, autoAlertEffect. cbn. rewrite Hbusy.
  now rewrite andb_false_r.
Qed.

(** The alerting effect either does nothing or begins one automatic
    generation, which is then the only one in flight. *)
Lemma effect_fires (granted : bool) (w : World) :
  singleFlight w ->
  let r := dispatch (autoAlertEffect granted) w in
  r = (w, [])
  \/ (automaticGenerations (snd r) = 1%nat
      /\ pendingGenerations (fst r) = [false]
      /\ isSendingAlert (component (fst r)) = true
      /\ autoAlertSentRef (component (fst r)) = false).
Proof.
  intros Hsf. pose proof (singleFlight_cases w Hsf) as Hcases.
  destruct w as [s p n g]. cbn in Hcases.
  destruct Hcases as [-> | [_ Hbusy]].
  - cbn. unfold dispatch, autoAlertEffect, generateAndSendAlert. cbn.
    destruct (isConnected (connectionStatus s)); [| now left].
    destruct (isCritical (vitals s)); [| now left].
    destruct (autoAlertSentRef s) eqn:Esent; [now left |].
    destruct (isSendingAlert s) eqn:Ebusy; [now left |].
    right. destruct granted; cbn; repeat split; exact Esent.
  - left. now apply effect_busy.
Qed.

Lemma step_unfold (w : World) (ev : Event) :
  step w ev =
    (fst (dispatch (autoAlertEffect (notificationsGranted (fst (handle ev w))))
                   (fst (handle ev w))),
     snd (handle ev w)
     ++ snd (dispatch (autoAlertEffect (notificationsGranted (fst (handle ev w))))
                      (fst (handle ev w)))).
Proof.
  unfold step. destruct (handle ev w) as [w1 es1]. cbn [fst snd].
  now destruct (dispatch (autoAlertEffect (notificationsGranted w1)) w1).
Qed.


Lemma step_singleFlight (w : World) (ev : Event) :
  singleFlight w -> singleFlight (fst (step w ev)).
Proof.
  intros Hsf. rewrite step_unfold. cbn [fst].
  pose proof (handle_singleFlight ev w Hsf) as Hsf1.
  destruct (effect_fires (notificationsGranted (fst (handle ev w))) _ Hsf1)
    as [-> | (_ & Hp & Hbusy & _)].
  - exact Hsf1.
  - split.
    + rewrite Hp. cbn. lia.
    + rewrite Hbusy. discriminate.
Qed.



Lemma run_cons (w : World) (ev : Event) (evs : list Event) :
  run w (ev :: evs) =
    (fst (run (fst (step w ev)) evs),
     snd (step w ev) ++ snd (run (fst (step w ev)) evs)).
Proof.
  cbn [run]. destruct (step w ev) as [w1 es1]. cbn [fst snd].
  now destruct (run w1 evs).
Qed.

Lemma run_singleFlight (evs : list Event) (w : World) :
  singleFlight w -> singleFlight (fst (run w evs)).
Proof.
  revert w. induction evs as [| ev evs IH]; intros w Hsf.
  - exact Hsf.
  - rewrite run_cons. cbn [fst]. apply IH. now apply step_singleFlight.
Qed.

Lemma initialWorld_singleFlight : singleFlight initialWorld.
Proof.
  split; cbn; [lia | reflexivity].
Qed.




(** C5. While [isSendingAlert] is true an invocation of
    [generateAndSendAlert], manual or automatic, returns at once: the
    component and the page are as before and no call has been made.
    Hence in every run from the mounted component at most one generation
    is in flight at any time. *)
Theorem generateAndSendAlert_in_flight (granted : bool) (v : Vitals)
    (isManual : bool) (w : World) (evs : list Event) :
  (isSendingAlert (component w) = true ->
     generateAndSendAlert granted v isManual (component w) = (component w, [])
     /\ dispatch (generateAndSendAlert granted v isManual) w = (w, []))
  /\ (length (pendingGenerations (fst (run initialWorld evs))) <= 1)%nat.
Proof.
  split.
  - intros Hbusy. split.
    + now apply generateAndSendAlert_busy.
    + unfold dispatch. rewrite generateAndSendAlert_busy by exact Hbusy.
      now destruct w.
  - apply (run_singleFlight evs initialWorld initialWorld_singleFlight).
Qed.


(** ** Further properties of the monitor *)

(** *** Vital cards *)

Lemma getVitalCardClass_alarmed (value min max : Z) :
  isAlarmed (getVitalCardClass value min max) = true
  <-> value <> 0 /\ (value < min \/ value > max).
Proof.
  unfold getVitalCardClass, isAlarmed.
  destruct (value =? 0) eqn:Ezero.
  - apply Z.eqb_eq in Ezero. cbn. split; [discriminate | tauto].
  - apply Z.eqb_neq in Ezero.
    destruct ((value <? min) || (value >? max)) eqn:Eout; cbn.
    + apply orb_true_iff in Eout. rewrite Z.ltb_lt, Z.gtb_ltb, Z.ltb_lt in Eout.
      split; [intros _; split; [exact Ezero | lia] | reflexivity].
    + apply orb_false_iff in Eout. rewrite Z.ltb_ge, Z.gtb_ltb, Z.ltb_ge in Eout.
      split; [discriminate | lia].
Qed.

(** X1. For a reading with non-zero heart rate and SpO2, non-negative
    systolic pressure and SpO2 at most 101, the detector says critical
    exactly when one of the three cards is drawn in red or the diastolic
    pressure is above 120: the diastolic pressure is the one threshold no
    card shows. *)
Theorem cards_show_critical (v : Vitals) :
  hr v <> 0 -> spo2 v <> 0 -> 0 <= systolic (bp v) -> spo2 v <= 101 ->
  (isCritical v = true
   <-> isAlarmed (heartRateCard v) = true
       \/ isAlarmed (bloodPressureCard v) = true
       \/ isAlarmed (oxygenCard v) = true
       \/ diastolic (bp v) > 120).
Proof.
  intros Hhr Hspo Hsys Hmax.
  rewrite isCritical_unguarded by tauto.
  unfold heartRateCard, bloodPressureCard, oxygenCard, outsideThresholds.
  rewrite !getVitalCardClass_alarmed. lia.
Qed.

(** *** The notification text *)

(** X2. [notificationBody] falls back to its generic text exactly for the
    readings inside all thresholds; in particular a reading the detector
    calls critical always gets a text that names the offending vital. *)
Theorem notificationBody_generic (v : Vitals) :
  (notificationBody v = genericBody <-> ~ outsideThresholds v)
  /\ (isCritical v = true -> notificationBody v <> genericBody).
Proof.
  assert (Hiff : notificationBody v = genericBody <-> ~ outsideThresholds v).
  { unfold notificationBody, outsideThresholds, genericBody.
    destruct ((hr v <? 50) || (hr v >? 130)) eqn:Ehr.
    - apply orb_true_iff in Ehr. rewrite Z.ltb_lt, Z.gtb_ltb, Z.ltb_lt in Ehr.
      split; [cbn -[show]; discriminate | lia].
    - apply orb_false_iff in Ehr. rewrite Z.ltb_ge, Z.gtb_ltb, Z.ltb_ge in Ehr.
      destruct (spo2 v <? 90) eqn:Espo.
      + apply Z.ltb_lt in Espo. split; [cbn -[show]; discriminate | lia].
      + apply Z.ltb_ge in Espo.
        destruct ((systolic (bp v) >? 180) || (diastolic (bp v) >? 120)) eqn:Ebp.
        * apply orb_true_iff in Ebp. rewrite !Z.gtb_ltb, !Z.ltb_lt in Ebp.
          split; [cbn -[show]; discriminate | lia].
        * apply orb_false_iff in Ebp. rewrite !Z.gtb_ltb, !Z.ltb_ge in Ebp.
          split; [lia | reflexivity]. }
  split; [exact Hiff |].
  intros Hcrit Hgen. apply Hiff in Hgen. apply Hgen.
  unfold isCritical in Hcrit.
  destruct ((hr v =? 0) && (spo2 v =? 0)); [discriminate |].
  unfold outsideThresholds.
  rewrite !orb_true_iff, !Z.ltb_lt, !Z.gtb_ltb, !Z.ltb_lt in Hcrit. lia.
Qed.

(** *** Chart zoom *)

Lemma findIndex_Some (label : string) (h : list VitalsWithTimestamp) (i : nat) :
  findIndex label h = Some i ->
  exists a, h !! i = Some a /\ timestamp a = label.
Proof.
  unfold findIndex. intros Hfind.
  destruct (list_find _ h) as [[j a] |] eqn:Efind; [| discriminate].
  cbn in Hfind. injection Hfind as ->.
  apply list_find_Some in Efind as (Hlook & Heq & _).
  exists a. split; [exact Hlook | now apply String.eqb_eq].
Qed.

(** X3. [handleZoom] does not depend on the direction of the drag: with
    the two ends of the selection exchanged it leaves the same state. *)
Theorem handleZoom_direction (s : State) :
  fst (handleZoom (swapSelection s)) = fst (handleZoom s).
Proof.
  destruct s as [c v h b m z l r f].
  unfold handleZoom, swapSelection. cbn -[findIndex Nat.min Nat.max Nat.eqb].
  rewrite (andb_comm (truthy r) (truthy l)).
  destruct (truthy l && truthy r); [| reflexivity].
  destruct (findIndex l h) as [li |], (findIndex r h) as [ri |]; try reflexivity.
  rewrite (Nat.min_comm ri li), (Nat.max_comm ri li).
  destruct (negb (Nat.min li ri =? Nat.max li ri)%nat); [| reflexivity].
  destruct (h !! Nat.min li ri), (h !! Nat.max li ri); reflexivity.
Qed.

(** X4. [handleZoom] always clears the selection and touches no cell but
    the zoom domain and the selection. When it changes the domain, the two
    ends of the selection are different timestamps of the history and the
    new domain is these two in the order of their first occurrence in the
    history: its lower end is the timestamp whose first entry, the one
    [findIndex] finds, comes earlier. *)
Theorem handleZoom_selection (s : State) :
  let s' := fst (handleZoom s) in
  refAreaLeft s' = ""%string /\ refAreaRight s' = ""%string
  /\ setZoomDomain (zoomDomain s') s
     = setRefAreaLeft (refAreaLeft s) (setRefAreaRight (refAreaRight s) s')
  /\ snd (handleZoom s) = []
  /\ (zoomDomain s' <> zoomDomain s ->
      refAreaLeft s <> refAreaRight s
      /\ exists i j a b,
           (i < j)%nat
           /\ vitalsHistory s !! i = Some a /\ vitalsHistory s !! j = Some b
           /\ findIndex (timestamp a) (vitalsHistory s) = Some i
           /\ findIndex (timestamp b) (vitalsHistory s) = Some j
           /\ zoomDomain s' = (timestamp a, timestamp b)
           /\ ((timestamp a = refAreaLeft s /\ timestamp b = refAreaRight s)
               \/ (timestamp a = refAreaRight s /\ timestamp b = refAreaLeft s))).
Proof.
  destruct s as [c v h busy m z l r f].
  unfold handleZoom. cbn -[findIndex Nat.min Nat.max Nat.eqb].
  destruct (truthy l && truthy r); [| now repeat split].
  destruct (findIndex l h) as [li |] eqn:El; [| now repeat split].
  destruct (findIndex r h) as [ri |] eqn:Er; [| now repeat split].
  destruct (Nat.min li ri =? Nat.max li ri)%nat eqn:Esame; cbn [negb];
    [now repeat split |].
  apply Nat.eqb_neq in Esame.
  destruct (findIndex_Some _ _ _ El) as (a & Ha & Hta).
  destruct (findIndex_Some _ _ _ Er) as (b & Hb & Htb).
  assert (Hne : l <> r).
  { intros ->. rewrite El in Er. injection Er as ->. lia. }
  destruct (Nat.lt_ge_cases li ri) as [Hlt | Hge].
  - rewrite Nat.min_l, Nat.max_r in * by lia. rewrite Ha, Hb. cbn.
    repeat split; try exact Hne.
    exists li, ri, a, b. rewrite Hta, Htb. repeat split; auto.
  - rewrite Nat.min_r, Nat.max_l in * by lia. rewrite Ha, Hb. cbn.
    repeat split; try exact Hne.
    exists ri, li, b, a. rewrite Hta, Htb. repeat split; auto. lia.
Qed.

(** *** The history over many ticks *)

Lemma pushHistory_drop (prev : list VitalsWithTimestamp) (e : VitalsWithTimestamp) :
  pushHistory prev e
    = drop (length prev + 1 - Z.to_nat MAX_HISTORY_LENGTH) (prev ++ [e]).
Proof.
  unfold pushHistory. rewrite length_app. cbn [length].
  destruct (Z.of_nat (length prev + 1) >? MAX_HISTORY_LENGTH) eqn:Egt.
  - rewrite Z.gtb_ltb in Egt. apply Z.ltb_lt in Egt.
    rewrite slice_drop
      by (rewrite length_app; cbn [length]; unfold MAX_HISTORY_LENGTH in *; lia).
    f_equal. unfold MAX_HISTORY_LENGTH in *. lia.
  - rewrite Z.gtb_ltb in Egt. apply Z.ltb_ge in Egt.
    replace (length prev + 1 - Z.to_nat MAX_HISTORY_LENGTH)%nat with 0%nat
      by (unfold MAX_HISTORY_LENGTH in *; lia).
    reflexivity.
Qed.

Lemma pushHistory_length (prev : list VitalsWithTimestamp) (e : VitalsWithTimestamp) :
  length (pushHistory prev e)
    = Nat.min (length prev + 1) (Z.to_nat MAX_HISTORY_LENGTH).
Proof.
  rewrite pushHistory_drop, length_drop, length_app. cbn [length].
  unfold MAX_HISTORY_LENGTH. lia.
Qed.

Lemma pushHistory_last (prev : list VitalsWithTimestamp) (e : VitalsWithTimestamp) :
  last (pushHistory prev e) = Some e.
Proof.
  rewrite pushHistory_drop.
  rewrite <- (take_drop (length prev + 1 - Z.to_nat MAX_HISTORY_LENGTH) prev) at 2.
  rewrite <- app_assoc, drop_app_length'; [apply last_snoc |].
  rewrite length_take. unfold MAX_HISTORY_LENGTH. lia.
Qed.

(** X5. Pushing a sequence of entries, one tick after the other, onto a
    history of at most [MAX_HISTORY_LENGTH] entries leaves exactly the
    last [MAX_HISTORY_LENGTH] entries of the old history followed by the
    new ones, in their order. *)
Theorem pushHistory_many (entries prev : list VitalsWithTimestamp) :
  (length prev <= Z.to_nat MAX_HISTORY_LENGTH)%nat ->
  foldl pushHistory prev entries
    = drop (length prev + length entries - Z.to_nat MAX_HISTORY_LENGTH)
           (prev ++ entries).
Proof.
  revert prev. induction entries as [| e entries IH]; intros prev Hcap.
  - cbn. rewrite app_nil_r.
    replace (length prev + 0 - Z.to_nat MAX_HISTORY_LENGTH)%nat with 0%nat by lia.
    reflexivity.
  - cbn [foldl]. rewrite IH by (rewrite pushHistory_length; lia).
    rewrite pushHistory_length, pushHistory_drop.
    set (k := (length prev + 1 - Z.to_nat MAX_HISTORY_LENGTH)%nat).
    assert (Hk : (k <= length (prev ++ [e]))%nat)
      by (rewrite length_app; cbn [length]; lia).
    rewrite <- (drop_app_le _ entries k) by exact Hk.
    rewrite drop_drop, <- app_assoc. cbn [app length].
    f_equal. lia.
Qed.

(** *** What the event loop keeps true *)

(** A handler leaves the reading and the history alone, unless it is
    [handleConnect] or a tick. *)
Lemma handle_readings (ev : Event) (w : World) :
  let s := component w in
  let s' := component (fst (handle ev w)) in
  (vitals s' = vitals s /\ vitalsHistory s' = vitalsHistory s)
  \/ (ev = ClickConnect /\ connectionStatus s' = connecting
      /\ vitals s' = placeholderVitals /\ vitalsHistory s' = [])
  \/ (exists d now,
        ev = IntervalFires d now
        /\ vitals s' = simulateVitals d
        /\ vitalsHistory s'
           = pushHistory (vitalsHistory s) (mkEntry (simulateVitals d) now)).
Proof.
  destruct ev; crush;
    try (right; left; repeat split; reflexivity);
    try (right; right; eexists _, _; repeat split; reflexivity).
Qed.

Lemma effect_readings (granted : bool) (w : World) :
  let s' := component (fst (dispatch (autoAlertEffect granted) w)) in
  vitals s' = vitals (component w)
  /\ vitalsHistory s' = vitalsHistory (component w)
  /\ connectionStatus s' = connectionStatus (component w)
  /\ connectTimers (fst (dispatch (autoAlertEffect granted) w)) = connectTimers w.
Proof.
  destruct granted; crush.
Qed.

Lemma step_readings (w : World) (ev : Event) :
  let s := component w in
  let s' := component (fst (step w ev)) in
  (vitals s' = vitals s /\ vitalsHistory s' = vitalsHistory s)
  \/ (ev = ClickConnect /\ connectionStatus s' = connecting
      /\ vitals s' = placeholderVitals /\ vitalsHistory s' = [])
  \/ (exists d now,
        ev = IntervalFires d now
        /\ vitals s' = simulateVitals d
        /\ vitalsHistory s'
           = pushHistory (vitalsHistory s) (mkEntry (simulateVitals d) now)).
Proof.
  cbn zeta. rewrite step_unfold. cbn [fst].
  destruct (effect_readings (notificationsGranted (fst (handle ev w)))
              (fst (handle ev w))) as (-> & -> & -> & _).
  apply handle_readings.
Qed.

Lemma step_history_invariant (w : World) (ev : Event) :
  (length (vitalsHistory (component w)) <= Z.to_nat MAX_HISTORY_LENGTH)%nat
  /\ readingIsLatest (component w) ->
  (length (vitalsHistory (component (fst (step w ev))))
     <= Z.to_nat MAX_HISTORY_LENGTH)%nat
  /\ readingIsLatest (component (fst (step w ev))).
Proof.
  intros [Hlen Hlatest]. unfold readingIsLatest in *.
  destruct (step_readings w ev)
    as [[-> ->] | [(_ & _ & -> & ->) | (d & now & _ & -> & ->)]].
  - now split.
  - split; [cbn; lia | reflexivity].
  - rewrite pushHistory_length, pushHistory_last. split; [lia | reflexivity].
Qed.

(** X6. In every run from the mounted component the history never holds
    more than [MAX_HISTORY_LENGTH] entries, and the displayed reading is
    the newest entry of the history, or the all-zero placeholder when the
    history is empty. *)
Theorem history_invariant (evs : list Event) :
  let s := component (fst (run initialWorld evs)) in
  (length (vitalsHistory s) <= Z.to_nat MAX_HISTORY_LENGTH)%nat
  /\ readingIsLatest s.
Proof.
  cbn zeta.
  assert (Hgen : forall w,
             (length (vitalsHistory (component w)) <= Z.to_nat MAX_HISTORY_LENGTH)%nat
             /\ readingIsLatest (component w) ->
             (length (vitalsHistory (component (fst (run w evs))))
                <= Z.to_nat MAX_HISTORY_LENGTH)%nat
             /\ readingIsLatest (component (fst (run w evs)))).
  { induction evs as [| ev evs IH]; intros w Hinv.
    - exact Hinv.
    - rewrite run_cons. cbn [fst]. apply IH. now apply step_history_invariant. }
  apply Hgen. split; [cbn; lia | reflexivity].
Qed.

Lemma handle_flagMatchesFlight (ev : Event) (w : World) :
  flagMatchesFlight w -> flagMatchesFlight (fst (handle ev w)).
Proof.
  intros Hinv. destruct w as [s p n g]. unfold flagMatchesFlight in *.
  cbn in Hinv. destruct Hinv as [[-> Hidle] | [m [-> Hbusy]]].
  - destruct ev; try destruct i; crush; cbn;
      try (left; split; [reflexivity | assumption]);
      try (right; eexists; split; reflexivity).
  - destruct ev; try destruct i as [| i]; crush; cbn;
      try (left; split; reflexivity);
      try (right; eexists; split; [reflexivity | assumption]).
Qed.

Lemma effect_flagMatchesFlight (granted : bool) (w : World) :
  flagMatchesFlight w ->
  flagMatchesFlight (fst (dispatch (autoAlertEffect granted) w)).
Proof.
  intros Hinv. destruct w as [s p n g]. unfold flagMatchesFlight in *.
  cbn in Hinv. destruct Hinv as [[-> Hidle] | [m [-> Hbusy]]].
  - destruct granted; crush; cbn;
      try (left; split; [reflexivity | assumption]);
      try (right; eexists; split; reflexivity).
  - rewrite effect_busy by exact Hbusy. right. now exists m.
Qed.

(** X7. In every run from the mounted component [isSendingAlert] is true
    exactly while one invocation of [generateAndSendAlert] is suspended at
    its [await]: the flag is never left set with nothing in flight, and
    nothing is in flight with the flag clear. *)
Theorem flag_tracks_flight (evs : list Event) :
  let w := fst (run initialWorld evs) in
  (isSendingAlert (component w) = true <-> length (pendingGenerations w) = 1%nat)
  /\ (isSendingAlert (component w) = false <-> pendingGenerations w = []).
Proof.
  cbn zeta.
  assert (Hgen : forall w, flagMatchesFlight w ->
                           flagMatchesFlight (fst (run w evs))).
  { induction evs as [| ev evs IH]; intros w Hinv.
    - exact Hinv.
    - rewrite run_cons. cbn [fst]. apply IH.
      rewrite step_unfold. cbn [fst].
      now apply effect_flagMatchesFlight, handle_flagMatchesFlight. }
  assert (Hinit : flagMatchesFlight initialWorld) by (left; split; reflexivity).
  destruct (Hgen _ Hinit) as [[Hp Hf] | [m [Hp Hf]]]; rewrite Hp, Hf; cbn.
  - split; split; congruence.
  - split; split; congruence.
Qed.

(** *** Status *)

Lemma handle_status (ev : Event) (w : World) :
  let s := component w in
  let w' := fst (handle ev w) in
  connectionStatus s <> error ->
  (connectionStatus s = connecting -> (0 < connectTimers w)%nat) ->
  connectionStatus (component w') <> error
  /\ (connectionStatus (component w') = connecting -> (0 < connectTimers w')%nat).
Proof.
  destruct w as [s p n g]. cbn. intros Herr Htimer.
  destruct ev; crush; cbn; split; try discriminate; try assumption; try lia;
    try (intros Hc; rewrite Hc in *; discriminate).
Qed.

Lemma handle_connecting (ev : Event) (w : World) :
  let s := component w in
  let s' := component (fst (handle ev w)) in
  connectionStatus s' = connecting ->
  (connectionStatus s = connecting
   /\ vitals s' = vitals s /\ vitalsHistory s' = vitalsHistory s)
  \/ (vitals s' = placeholderVitals /\ vitalsHistory s' = []).
Proof.
  destruct w as [s p n g]. cbn.
  destruct ev; crush; try (right; split; reflexivity).
  intros Hc. rewrite Hc in *. discriminate.
Qed.

(** X8. In every run from the mounted component the status is never
    [error], and whenever it is [connecting] a timer of [handleConnect] is
    still to fire, the history is empty and the reading is the
    placeholder. *)
Theorem status_invariant (evs : list Event) :
  let w := fst (run initialWorld evs) in
  connectionStatus (component w) <> error
  /\ (connectionStatus (component w) = connecting ->
      (0 < connectTimers w)%nat
      /\ vitalsHistory (component w) = []
      /\ vitals (component w) = placeholderVitals).
Proof.
  cbn zeta.
  set (inv := fun w : World =>
         connectionStatus (component w) <> error
         /\ (connectionStatus (component w) = connecting ->
             (0 < connectTimers w)%nat
             /\ vitalsHistory (component w) = []
             /\ vitals (component w) = placeholderVitals)).
  assert (Hstep : forall w ev, inv w -> inv (fst (step w ev))).
  { intros w ev [Herr Hconn]. unfold inv.
    rewrite step_unfold. cbn [fst].
    destruct (effect_readings (notificationsGranted (fst (handle ev w)))
                (fst (handle ev w))) as (Hv & Hh & Hc & Ht).
    rewrite Hv, Hh, Hc, Ht.
    destruct (handle_status ev w Herr (fun H => proj1 (Hconn H))) as [Herr' Htimer'].
    split; [exact Herr' |]. intros Hconnecting.
    split; [now apply Htimer' |].
    destruct (handle_connecting ev w Hconnecting) as [(Hwas & -> & ->) | [-> ->]].
    - now destruct (Hconn Hwas) as (_ & ? & ?).
    - now split. }
  assert (Hgen : forall w, inv w -> inv (fst (run w evs))).
  { induction evs as [| ev evs IH]; intros w Hinv.
    - exact Hinv.
    - rewrite run_cons. cbn [fst]. apply IH, Hstep, Hinv. }
  apply Hgen. split; [discriminate | discriminate].
Qed.

(** *** The calls a turn makes *)

Ltac split_guards :=
  repeat match goal with
         | H : (_ && _) = true |- _ => apply andb_true_iff in H; destruct H
         | H : negb _ = true |- _ => apply negb_true_iff in H
         | H : isConnected ?c = true |- _ =>
             destruct c; try discriminate H; clear H
         end.

(** A turn makes no call, or sets the connect timer, or begins one
    generation, with its notification when the permission is granted. *)
Lemma step_effects (w : World) (ev : Event) :
  let w' := fst (step w ev) in
  let s' := component w' in
  snd (step w ev) = []
  \/ (ev = ClickConnect /\ snd (step w ev) = [SetTimeout2500])
  \/ (exists isManual,
        snd (step w ev)
          = (if notificationsGranted w'
             then [ShowNotification notificationTitle (notificationBody (vitals s'))]
             else [])
            ++ [GenerateContent isManual (alertPrompt (vitals s') isManual)]
        /\ connectionStatus s' = connected
        /\ isSendingAlert s' = true
        /\ (if isManual
            then ev = ClickSendAlert /\ alertMessage s' = None
            else isCritical (vitals s') = true /\ autoAlertSentRef s' = false)).
Proof.
  destruct w as [s p n g]. unfold step.
  destruct ev; crush;
    try (right; left; split; reflexivity);
    split_guards;
    try (right; right; exists true; cbn; repeat split; auto; fail);
    try (right; right; exists false; cbn; repeat split; auto; fail).
Qed.

(** X9. Whenever a turn begins a generation, the monitor is connected,
    the prompt describes the reading on display, and it is the only
    generation the turn begins. A manual one comes from a click on the
    alert button and clears the alert message; an automatic one is begun
    only for a reading the detector calls critical and only while the
    sent-flag is clear. *)
Theorem generation_begun (w : World) (ev : Event) (isManual : bool)
    (prompt : string) :
  In (GenerateContent isManual prompt) (snd (step w ev)) ->
  let s' := component (fst (step w ev)) in
  connectionStatus s' = connected
  /\ isSendingAlert s' = true
  /\ prompt = alertPrompt (vitals s') isManual
  /\ generations (snd (step w ev)) = 1%nat
  /\ (if isManual
      then ev = ClickSendAlert /\ alertMessage s' = None
      else isCritical (vitals s') = true /\ autoAlertSentRef s' = false).
Proof.
  intros Hin. cbn zeta.
  destruct (step_effects w ev) as [Hnone | [[_ Htimer] | (m & Hes & Hc & Hb & Hm)]].
  - rewrite Hnone in Hin. contradiction.
  - rewrite Htimer in Hin. destruct Hin as [Hin | []]. discriminate Hin.
  - rewrite Hes in Hin |- *.
    assert (Heq : GenerateContent isManual prompt
                  = GenerateContent m (alertPrompt (vitals (component (fst (step w ev)))) m)).
    { destruct (notificationsGranted (fst (step w ev))); cbn in Hin.
      - destruct Hin as [Hin | [Hin | []]]; [discriminate Hin | now symmetry].
      - destruct Hin as [Hin | []]. now symmetry. }
    injection Heq as -> ->.
    repeat split; try assumption.
    destruct (notificationsGranted (fst (step w ev))); reflexivity.
Qed.

(** X10. A turn asks for a notification only while the permission is
    granted, only together with the one generation it begins, and with
    the text [notificationBody] gives for the reading on display. *)
Theorem notification_shown (w : World) (ev : Event) (title body : string) :
  In (ShowNotification title body) (snd (step w ev)) ->
  notificationsGranted (fst (step w ev)) = true
  /\ title = notificationTitle
  /\ body = notificationBody (vitals (component (fst (step w ev))))
  /\ generations (snd (step w ev)) = 1%nat.
Proof.
  intros Hin.
  destruct (step_effects w ev) as [Hnone | [[_ Htimer] | (m & Hes & _)]].
  - rewrite Hnone in Hin. contradiction.
  - rewrite Htimer in Hin. destruct Hin as [Hin | []]. discriminate Hin.
  - rewrite Hes in Hin |- *.
    destruct (notificationsGranted (fst (step w ev))); cbn in Hin.
    + destruct Hin as [Hin | [Hin | []]]; [| discriminate Hin].
      injection Hin as <- <-. repeat split.
    + destruct Hin as [Hin | []]. discriminate Hin.
Qed.

(** X11. The alerting effect does not fire twice in a row: run again on
    the state it left, whatever the permission then, it does nothing. *)
Theorem autoAlertEffect_settles (granted granted' : bool) (w : World) :
  dispatch (autoAlertEffect granted')
           (fst (dispatch (autoAlertEffect granted) w))
  = (fst (dispatch (autoAlertEffect granted) w), []).
Proof.
  destruct w as [s p n g].
  destruct (isConnected (connectionStatus s) && isCritical (vitals s)
            && negb (autoAlertSentRef s) && negb (isSendingAlert s)) eqn:Eguard.
  - apply effect_busy.
    unfold dispatch, autoAlertEffect, generateAndSendAlert. cbn.
    rewrite Eguard. split_guards.
    match goal with H : isSendingAlert s = false |- _ => rewrite H end.
    now destruct granted.
  - assert (Hsame : dispatch (autoAlertEffect granted) (mkWorld s p n g)
                    = (mkWorld s p n g, [])).
    { unfold dispatch, autoAlertEffect. cbn. now rewrite Eguard. }
    rewrite Hsame. cbn [fst].
    unfold dispatch, autoAlertEffect. cbn. now rewrite Eguard.
Qed.

Lemma step_message_kept (w : World) (ev : Event) :
  connectionStatus (component w) = connected ->
  truthyMessage (alertMessage (component w)) = true ->
  ev <> ClickConnect -> ev <> ClickDisconnect ->
  (forall i o, ev <> GenerationSettles i o) ->
  connectionStatus (component (fst (step w ev))) = connected
  /\ alertMessage (component (fst (step w ev))) = alertMessage (component w)
  /\ manualGenerations (snd (step w ev)) = 0%nat.
Proof.
  destruct w as [s p n g]. cbn. intros Hc Hmsg Hconn Hdis Hsettle. unfold step.
  destruct ev; try congruence; try (now exfalso; eapply Hsettle);
    crush; rewrite ?Hc, ?Hmsg, ?andb_false_r in *; try discriminate; auto.
Qed.

(** X12. On a connected monitor a truthy alert message stays on display
    as it is, and the alert button stays away so that no manual generation
    begins, through every stretch in which nobody clicks the connect or
    the disconnect button and no generation settles. *)
Theorem alert_message_stays (evs : list Event) (w : World) :
  connectionStatus (component w) = connected ->
  truthyMessage (alertMessage (component w)) = true ->
  quiet evs ->
  shownMessage (component (fst (run w evs))) = alertMessage (component w)
  /\ connectionStatus (component (fst (run w evs))) = connected
  /\ alertMessage (component (fst (run w evs))) = alertMessage (component w)
  /\ manualGenerations (snd (run w evs)) = 0%nat.
Proof.
  revert w. induction evs as [| ev evs IH]; intros w Hc Hmsg Hquiet.
  - unfold shownMessage. cbn. rewrite Hc, Hmsg. now repeat split.
  - apply Forall_cons in Hquiet as [(Hconn & Hdis & Hsettle) Hquiet].
    destruct (step_message_kept w ev Hc Hmsg Hconn Hdis Hsettle)
      as (Hc1 & Hkept & Hnone).
    rewrite run_cons. cbn [fst snd].
    rewrite <- Hkept in Hmsg |- *.
    destruct (IH _ Hc1 Hmsg Hquiet) as (Hshown & Hc' & Hkept' & Hnone').
    split; [exact Hshown |]. split; [exact Hc' |]. split; [exact Hkept' |].
    unfold manualGenerations in *.
    rewrite List.filter_app, length_app. lia.
Qed.


(** *** The simulator *)

Lemma binary64_zero : binary64 0.
Proof.
  exists 0, 0. repeat split; try lia; reflexivity.
Qed.

(** The largest binary64 below 1 is [1 - 2^-53]. *)
Lemma unitInterval_max (r : Q) :
  unitInterval r -> (r <= 1 - (1 # 2 ^ 53))%Q.
Proof.
  intros [(m & e & Hm & He & Hr) [Hlo Hhi]].
  rewrite Hr in Hhi |- *. clear Hr Hlo r.
  change 2%Q with (inject_Z 2) in *.
  destruct (Z_lt_le_dec e 0) as [Hneg | Hpos].
  - replace e with (- - e) in Hhi |- * by lia.
    rewrite Qpower_opp in Hhi |- *.
    rewrite <- Zpower_Qpower in Hhi |- * by lia.
    assert (Hpk : 0 < 2 ^ (- e)) by (apply Z.pow_pos_nonneg; lia).
    destruct (2 ^ (- e)) as [| p | p]; try lia.
    unfold Qlt, Qle in *. cbn in *. lia.
  - rewrite <- Zpower_Qpower in Hhi |- * by lia.
    assert (Hpk : 0 < 2 ^ e) by (apply Z.pow_pos_nonneg; lia).
    destruct (2 ^ e) as [| p | p]; try lia.
    unfold Qlt, Qle in *. cbn in *. nia.
Qed.

Section Rounding.

(** On the products the tick forms, all between 0 and 1024 and so far from
    overflow, rounding is monotone and no binary64 is nearer to the exact
    product than the rounded one (round to nearest). *)
Hypothesis rnd_monotone :
  forall x y : Q,
    (0 <= x)%Q -> (x <= y)%Q -> (y <= 1024)%Q -> (rnd x <= rnd y)%Q.
Hypothesis rnd_nearest :
  forall x y : Q,
    (0 <= x)%Q -> (x <= 1024)%Q -> binary64 y ->
    (Qabs (rnd x - x) <= Qabs (y - x))%Q.

Lemma rnd_zero : (rnd 0 == 0)%Q.
Proof.
  assert (Hnear : (Qabs (rnd 0 - 0) <= Qabs (0 - 0))%Q)
    by (apply rnd_nearest; [lra | lra | exact binary64_zero]).
  revert Hnear. apply Qabs_case; apply Qabs_case; intros; lra.
Qed.

(** [Math.floor(Math.random() * n)] lies in [0, n-1]: the product
    cannot round up to [n], because the binary64 [n - u] just below
    [n] is nearer to the largest exact product than [n] is. *)
Lemma floor_scaled (r : Q) (n : Z) (u : Q) :
  unitInterval r ->
  0 < n <= 1024 ->
  binary64 (inject_Z n - u) ->
  (0 < u)%Q -> (u < inject_Z n * (1 # 2 ^ 52))%Q ->
  0 <= Qfloor (rnd (r * inject_Z n)) <= n - 1.
Proof.
  intros Hunit [Hn Hn'] Hbelow Hu0 Hu.
  pose proof (unitInterval_max r Hunit) as Hmax.
  destruct Hunit as (_ & Hlo & _).
  assert (HN : (0 < inject_Z n)%Q)
    by (change 0%Q with (inject_Z 0); rewrite <- Zlt_Qlt; exact Hn).
  assert (HN' : (inject_Z n <= 1024)%Q)
    by (change 1024%Q with (inject_Z 1024); rewrite <- Zle_Qle; exact Hn').
  set (N := inject_Z n) in *.
  set (M := ((1 - (1 # 2 ^ 53)) * N)%Q).
  assert (Hexact0 : (0 <= r * N)%Q)
    by (apply Qmult_le_0_compat; [exact Hlo | now apply Qlt_le_weak]).
  assert (HexactM : (r * N <= M)%Q)
    by (apply Qmult_le_compat_r; [exact Hmax | now apply Qlt_le_weak]).
  assert (HM : (M <= 1024)%Q).
  { unfold M.
    let p := eval vm_compute in (2 ^ 53)%positive in
      change (2 ^ 53)%positive with p.
    lra. }
  split.
  - rewrite <- (Qfloor_Z 0). apply Qfloor_resp_le.
    change (inject_Z 0) with 0%Q.
    rewrite <- rnd_zero. apply rnd_monotone; lra.
  - assert (Hle : (rnd (r * N) <= rnd M)%Q)
      by (apply rnd_monotone; lra).
    assert (Hlt : (rnd M < N)%Q).
    { assert (Hnear : (Qabs (rnd M - M) <= Qabs (N - u - M))%Q)
        by (apply rnd_nearest; [lra | lra | exact Hbelow]).
      revert Hnear Hu. unfold M.
      let p := eval vm_compute in (2 ^ 53)%positive in
        change (2 ^ 53)%positive with p;
      let p := eval vm_compute in (2 ^ 52)%positive in
        change (2 ^ 52)%positive with p.
      apply Qabs_case; apply Qabs_case; intros; lra. }
    assert (Hfl : (inject_Z (Qfloor (rnd (r * N))) < inject_Z n)%Q).
    { eapply Qle_lt_trans; [apply Qfloor_le |].
      eapply Qle_lt_trans; [exact Hle | exact Hlt]. }
    rewrite <- Zlt_Qlt in Hfl. lia.
Qed.

Lemma binary64_below (n : Z) (k : positive) :
  Z.abs (n * Z.pos (2 ^ k) - 1) < 2 ^ 53 ->
  Z.pos k <= 1074 ->
  binary64 (inject_Z n - (1 # 2 ^ k)).
Proof.
  intros Hm Hk.
  exists (n * Z.pos (2 ^ k) - 1), (- Z.pos k).
  repeat split; try lia.
  change 2%Q with (inject_Z 2).
  rewrite Qpower_opp, <- Zpower_Qpower by lia.
  rewrite <- Pos2Z.inj_pow.
  unfold Qeq. cbn. lia.
Qed.

(** C7. Every reading the tick produces, from draws that
    [Math.random()] can return, has heart rate in [45, 140], systolic
    pressure in [85, 190], diastolic pressure in [55, 130] and SpO2 in
    [88, 100]; the tick stores that reading, appends it to the history
    under the clock's timestamp, and makes no call that could fail. *)
Theorem tick_ranges (d : Draws) (now : string) (s : State) :
  validDraws d ->
  let v := vitals (fst (tick d now s)) in
  (45 <= hr v <= 140
   /\ 85 <= systolic (bp v) <= 190
   /\ 55 <= diastolic (bp v) <= 130
   /\ 88 <= spo2 v <= 100)
  /\ v = simulateVitals d
  /\ vitalsHistory (fst (tick d now s))
     = pushHistory (vitalsHistory s) (mkEntry v now)
  /\ snd (tick d now s) = [].
Proof.
  intros (Hhr & Hsys & Hdia & Hspo). cbn -[simulateVitals pushHistory].
  split; [| repeat split].
  unfold simulateVitals.
  cbn [hr bp spo2 systolic diastolic].
  pose proof (floor_scaled _ (140 - 45 + 1) (1 # 2 ^ 46) Hhr) as H1.
  pose proof (floor_scaled _ (190 - 85 + 1) (1 # 2 ^ 46) Hsys) as H2.
  pose proof (floor_scaled _ (130 - 55 + 1) (1 # 2 ^ 46) Hdia) as H3.
  pose proof (floor_scaled _ (100 - 88 + 1) (1 # 2 ^ 49) Hspo) as H4.
  specialize (H1 ltac:(lia)). specialize (H2 ltac:(lia)).
  specialize (H3 ltac:(lia)). specialize (H4 ltac:(lia)).
  specialize (H1 ltac:(apply binary64_below; [vm_compute; reflexivity | lia])).
  specialize (H2 ltac:(apply binary64_below; [vm_compute; reflexivity | lia])).
  specialize (H3 ltac:(apply binary64_below; [vm_compute; reflexivity | lia])).
  specialize (H4 ltac:(apply binary64_below; [vm_compute; reflexivity | lia])).
  specialize (H1 ltac:(reflexivity) ltac:(reflexivity)).
  specialize (H2 ltac:(reflexivity) ltac:(reflexivity)).
  specialize (H3 ltac:(reflexivity) ltac:(reflexivity)).
  specialize (H4 ltac:(reflexivity) ltac:(reflexivity)).
  lia.
Qed.

Lemma simulateVitals_inRange (d : Draws) :
  validDraws d -> inRange (simulateVitals d).
Proof.
  intros (Hhr & Hsys & Hdia & Hspo).
  unfold inRange, simulateVitals. cbn [hr bp spo2 systolic diastolic].
  assert (H1 : 0 <= Qfloor (rnd (draw_hr d * inject_Z (140 - 45 + 1)))
               <= 140 - 45 + 1 - 1).
  { apply (floor_scaled _ _ (1 # 2 ^ 46)); try exact Hhr; try lia;
      try reflexivity.
    apply binary64_below; [vm_compute; reflexivity | lia]. }
  assert (H2 : 0 <= Qfloor (rnd (draw_systolic d * inject_Z (190 - 85 + 1)))
               <= 190 - 85 + 1 - 1).
  { apply (floor_scaled _ _ (1 # 2 ^ 46)); try exact Hsys; try lia;
      try reflexivity.
    apply binary64_below; [vm_compute; reflexivity | lia]. }
  assert (H3 : 0 <= Qfloor (rnd (draw_diastolic d * inject_Z (130 - 55 + 1)))
               <= 130 - 55 + 1 - 1).
  { apply (floor_scaled _ _ (1 # 2 ^ 46)); try exact Hdia; try lia;
      try reflexivity.
    apply binary64_below; [vm_compute; reflexivity | lia]. }
  assert (H4 : 0 <= Qfloor (rnd (draw_spo2 d * inject_Z (100 - 88 + 1)))
               <= 100 - 88 + 1 - 1).
  { apply (floor_scaled _ _ (1 # 2 ^ 49)); try exact Hspo; try lia;
      try reflexivity.
    apply binary64_below; [vm_compute; reflexivity | lia]. }
  lia.
Qed.

Lemma inRange_thresholds (v : Vitals) :
  inRange v ->
  v <> placeholderVitals /\ (isCritical v = true <-> outsideThresholds v).
Proof.
  intros (Hhr & _). split.
  - intros ->. cbn in Hhr. lia.
  - apply isCritical_unguarded. lia.
Qed.

(** X14. In every run from the mounted component whose ticks draw what
    [Math.random()] can return, the reading on display is the placeholder
    or lies in the simulator's ranges, every entry of the history lies in
    them, and on the reading on display the detector agrees with the
    thresholds: it is critical exactly when it is not the placeholder and
    heart rate < 50 or > 130, systolic > 180, diastolic > 120 or
    SpO2 < 90. *)
Theorem readings_in_range (evs : list Event) :
  validTicks evs ->
  let s := component (fst (run initialWorld evs)) in
  (vitals s = placeholderVitals \/ inRange (vitals s))
  /\ Forall (fun entry => inRange (reading entry)) (vitalsHistory s)
  /\ (isCritical (vitals s) = true
      <-> vitals s <> placeholderVitals /\ outsideThresholds (vitals s)).
Proof.
  intros Hvalid. cbn zeta.
  set (inv := fun s : State =>
         (vitals s = placeholderVitals \/ inRange (vitals s))
         /\ Forall (fun entry => inRange (reading entry)) (vitalsHistory s)).
  assert (Hgen : forall w, inv (component w) ->
                           inv (component (fst (run w evs)))).
  { induction evs as [| ev evs IH]; intros w Hinv.
    - exact Hinv.
    - apply Forall_cons in Hvalid as [Hev Hvalid].
      rewrite run_cons. cbn [fst]. apply IH; [exact Hvalid |].
      destruct Hinv as [Hv Hh]. unfold inv.
      destruct (step_readings w ev)
        as [[-> ->] | [(_ & _ & -> & ->) | (d & now & -> & -> & ->)]].
      + now split.
      + split; [now left | constructor].
      + pose proof (simulateVitals_inRange d (Hev d now eq_refl)) as Hd.
        split; [now right |].
        rewrite pushHistory_drop. apply Forall_drop, Forall_app.
        split; [exact Hh | constructor; [exact Hd | constructor]]. }
  destruct (Hgen initialWorld) as [Hv Hh].
  { split; [now left | constructor]. }
  split; [exact Hv | split; [exact Hh |]].
  destruct Hv as [-> | Hrange].
  - split; [discriminate | intros [Hne _]; now destruct Hne].
  - destruct (inRange_thresholds _ Hrange) as [Hne Hiff].
    rewrite Hiff. tauto.
Qed.

End Rounding.

End Component.

(** ** Properties of the notification click and of the routing *)

Lemma chooseClient_snoc (first : WindowClient) (l : list WindowClient)
    (c : WindowClient) :
  chooseClient first (l ++ [c])
    = if focused c then c else chooseClient first l.
Proof.
  unfold chooseClient. now rewrite foldl_app.
Qed.

Lemma chooseClient_spec (first : WindowClient) (l : list WindowClient) :
  (Forall (fun c => focused c = false) l /\ chooseClient first l = first)
  \/ (exists before after,
        l = before ++ chooseClient first l :: after
        /\ focused (chooseClient first l) = true
        /\ Forall (fun c => focused c = false) after).
Proof.
  induction l as [| c l IH] using rev_ind.
  - left. split; [constructor | reflexivity].
  - rewrite chooseClient_snoc. destruct (focused c) eqn:Efocus.
    + right. exists l, []. repeat split; [exact Efocus | constructor].
    + destruct IH as [[Hnone Hfirst] | (before & after & Hl & Hfoc & Hafter)].
      * left. split; [| exact Hfirst].
        apply Forall_app. split; [exact Hnone | now repeat constructor].
      * right. exists before, (after ++ [c]). repeat split.
        -- rewrite Hl at 1. now rewrite <- app_assoc.
        -- exact Hfoc.
        -- apply Forall_app. split; [exact Hafter | now repeat constructor].
Qed.

Lemma append_empty (x : string) : String.append x "" = x.
Proof.
  induction x as [| a x IH]; [reflexivity |].
  change (String a (String.append x "") = String a x). now rewrite IH.
Qed.

(** X15. A click on a notification opens a new window exactly when no
    window client exists. Otherwise it navigates a client of the list: the
    last focused one if any client is focused, the first client if none
    is. The address is the origin followed by the notification's
    [data.url], and the origin alone when that is absent. *)
Theorem notificationclick_target (originHref : string) (dataUrl : option string)
    (clientList : list WindowClient) :
  match notificationclick originHref dataUrl clientList with
  | OpenWindow url =>
      clientList = [] /\ url = urlToOpen originHref dataUrl
  | NavigateAndFocus client url =>
      url = urlToOpen originHref dataUrl
      /\ In client clientList
      /\ ((exists before after,
             clientList = before ++ client :: after
             /\ focused client = true
             /\ Forall (fun c => focused c = false) after)
          \/ (Forall (fun c => focused c = false) clientList
              /\ head clientList = Some client))
  end
  /\ urlToOpen originHref None = originHref.
Proof.
  split; [| apply append_empty].
  destruct clientList as [| first rest]; cbn [notificationclick].
  - now split.
  - split; [reflexivity |].
    destruct (chooseClient_spec first (first :: rest))
      as [[Hnone Hfirst] | (before & after & Hl & Hfoc & Hafter)].
    + rewrite Hfirst. split; [apply in_eq |].
      right. now split.
    + split.
      * rewrite Hl at 2. apply in_or_app. right. apply in_eq.
      * left. now exists before, after.
Qed.

Ltac route_cases :=
  repeat match goal with
         | H : context [String.eqb ?r ?lit] |- _ =>
             let E := fresh "E" in
             destruct (String.eqb r lit) eqn:E;
             [apply String.eqb_eq in E | apply String.eqb_neq in E]
         end.

(** X16. [renderPage] sends different routes to different pages, the
    dashboard apart: two states that render the same page other than the
    dashboard are on the same route. The address the alert notification
    carries is the route of the vitals monitor, and nothing but the login
    screen is rendered while [isAuthenticated] is false. *)
Theorem renderPage_routes (a b : AppState) :
  (renderPage a = renderPage b -> renderPage a <> Dashboard -> route a = route b)
  /\ (route a = vitalsAlertUrl -> renderPage a = VitalsMonitor)
  /\ (render a = AuthScreen <-> isAuthenticated a = false).
Proof.
  split; [| split].
  - unfold renderPage. intros Hsame Hpage.
    route_cases; try congruence; try discriminate Hsame.
  - unfold renderPage, vitalsAlertUrl. intros ->. reflexivity.
  - unfold render. destruct (isAuthenticated a); split; congruence.
Qed.

(** X17. The login is kept in [localStorage] and nowhere else: after
    [handleLogin] a freshly mounted [App] is authenticated, after
    [handleLogout] it is not and shows the login screen on every route;
    both touch no other item of the storage; and a login that follows a
    logout shows the dashboard once the change of the hash is handled. *)
Theorem login_round_trip (b : Browser) (a : AppState) :
  let loggedIn := handleLogin b a in
  let loggedOut := handleLogout b a in
  let again := handleLogin (fst loggedOut) (snd loggedOut) in
  isAuthenticated (snd loggedIn) = true
  /\ isAuthenticated (mountApp (fst loggedIn)) = true
  /\ isAuthenticated (snd loggedOut) = false
  /\ isAuthenticated (mountApp (fst loggedOut)) = false
  /\ render (mountApp (fst loggedOut)) = AuthScreen
  /\ (forall key, key <> "authToken"%string ->
        localStorage (fst loggedIn) !! key = localStorage b !! key
        /\ localStorage (fst loggedOut) !! key = localStorage b !! key)
  /\ render (handleHashChange (fst again) (snd again)) = LayoutWith Dashboard.
Proof.
  unfold handleLogin, handleLogout, mountApp, handleHashChange, render, hasItem.
  cbn [fst snd localStorage locationHash isAuthenticated route
       symptomsForRec extractedRecordText].
  rewrite lookup_insert_eq, lookup_delete_eq.
  repeat split.
  - now rewrite lookup_insert_ne.
  - now rewrite lookup_delete_ne.
Qed.


(** ** Examples on concrete inputs *)

Lemma exactProduct_monotone (x y : Q) :
  (0 <= x)%Q -> (x <= y)%Q -> (y <= 1024)%Q ->
  (exactProduct x <= exactProduct y)%Q.
Proof.
  intros _ Hle _. exact Hle.
Defined.

Lemma exactProduct_nearest (x y : Q) :
  (0 <= x)%Q -> (x <= 1024)%Q -> binary64 y ->
  (Qabs (exactProduct x - x) <= Qabs (y - x))%Q.
Proof.
  intros _ _ _. unfold exactProduct.
  assert (Hz : (x - x == 0)%Q) by ring.
  rewrite Hz. apply Qabs_nonneg.
Defined.

Lemma half_unitInterval : unitInterval (1 # 2).
Proof.
  split; [| split; reflexivity || discriminate].
  exists 1, (-1). repeat split; try lia; reflexivity.
Defined.

(** The reading 45, 85/55, 88 is past the guard and critical. *)
Lemma isCritical_thresholds_witness :
  let v := mkVitals 45 (mkBP 85 55) 88 in
  ~ (hr v = 0 /\ spo2 v = 0)
  /\ (isCritical v = true <-> outsideThresholds v).
Proof.
  intros v.
  assert (Hnz : ~ (hr v = 0 /\ spo2 v = 0)) by (cbn; lia).
  split; [exact Hnz |].
  exact (proj1 (proj2 (isCritical_thresholds v)) Hnz).
Defined.

(** C1 as stated fails on a reading that is not the all-zero placeholder:
    heart rate 0 and SpO2 0 with systolic pressure 200 is outside the
    thresholds (heart rate < 50, systolic > 180) and yet not critical. *)
Lemma isCritical_zero_pulse_not_critical :
  let v := mkVitals 0 (mkBP 200 0) 0 in
  v <> placeholderVitals
  /\ outsideThresholds v
  /\ isCritical v = false.
Proof.
  cbn. split; [discriminate | split; [left; cbn; lia | reflexivity]].
Qed.

Lemma isCritical_pure_witness :
  let v := mkVitals 45 (mkBP 85 55) 88 in
  let busy := setIsSendingAlert true initialState in
  v = v
  /\ fst (callBody isCritical_body v initialState)
     = fst (callBody isCritical_body v busy)
  /\ snd (callBody isCritical_body v busy) = busy
  /\ fst (callBody isCritical_body v initialState) = Returns true.
Proof.
  intros v busy.
  destruct (isCritical_pure v v initialState busy eq_refl)
    as (_ & Hsame & _ & Hright & Hvalue).
  split; [reflexivity | split; [exact Hsame | split; [exact Hright | exact Hvalue]]].
Defined.

(** A full history of thirty entries takes a thirty-first. *)
Lemma pushHistory_ring_witness :
  let old := mkEntry placeholderVitals "00:00" in
  let new := mkEntry (mkVitals 93 (mkBP 138 93) 94) "00:02" in
  let prev := replicate 30 old in
  Z.of_nat (length prev) <= MAX_HISTORY_LENGTH
  /\ Z.of_nat (length (pushHistory prev new)) <= MAX_HISTORY_LENGTH
  /\ last (pushHistory prev new) = Some new.
Proof.
  intros old new prev.
  assert (Hcap : Z.of_nat (length prev) <= MAX_HISTORY_LENGTH)
    by (vm_compute; discriminate).
  destruct (pushHistory_ring prev new Hcap) as (Hlen & Hlast & _).
  split; [exact Hcap | split; [exact Hlen | exact Hlast]].
Defined.




(** While the automatic generation of the first critical reading is in
    flight, a manual invocation changes nothing. *)
Lemma generateAndSendAlert_in_flight_witness :
  let evs := [ClickConnect; ConnectTimerFires; IntervalFires lowDraws "00:01"] in
  let w := fst (run untranslated exactProduct initialWorld evs) in
  isSendingAlert (component w) = true
  /\ dispatch (generateAndSendAlert true (vitals (component w)) true) w = (w, [])
  /\ (length (pendingGenerations w) <= 1)%nat.
Proof.
  intros evs w.
  assert (Hbusy : isSendingAlert (component w) = true) by (vm_compute; reflexivity).
  destruct (generateAndSendAlert_in_flight untranslated exactProduct true
              (vitals (component w)) true w evs) as [Hguard Hone].
  split; [exact Hbusy | split; [exact (proj2 (Hguard Hbusy)) | exact Hone]].
Defined.

Lemma generateAndSendAlert_rejected_witness :
  let s := setConnectionStatus connected initialState in
  let v := mkVitals 45 (mkBP 85 55) 88 in
  isSendingAlert s = false
  /\ alertMessage (fst (generateAndSendAlert_resume untranslated false Rejected
                          (fst (generateAndSendAlert true v false s))))
     = Some (untranslated "alertGenerationError").
Proof.
  intros s v.
  assert (Hidle : isSendingAlert s = false) by reflexivity.
  split; [exact Hidle |].
  exact (proj1 (generateAndSendAlert_rejected untranslated true v false s
                  (fst (generateAndSendAlert true v false s)) Hidle)).
Defined.

Lemma generateAndSendAlert_releases_witness :
  let s := setConnectionStatus connected initialState in
  let v := mkVitals 45 (mkBP 85 55) 88 in
  let begun := fst (generateAndSendAlert true v true s) in
  isSendingAlert s = false
  /\ isSendingAlert begun = true
  /\ isSendingAlert
       (fst (generateAndSendAlert_resume untranslated true Rejected begun)) = false.
Proof.
  intros s v begun.
  assert (Hidle : isSendingAlert s = false) by reflexivity.
  destruct (generateAndSendAlert_releases untranslated true v true s Rejected
              begun Hidle) as (Hup & _ & Hdown).
  split; [exact Hidle | split; [exact Hup | exact Hdown]].
Defined.

(** Four draws of 1/2 under exact multiplication give 93, 138/93, 94. *)
Lemma tick_ranges_witness :
  let v := vitals (fst (tick exactProduct midDraws "00:01" initialState)) in
  validDraws midDraws
  /\ 45 <= hr v <= 140
  /\ 85 <= systolic (bp v) <= 190
  /\ 55 <= diastolic (bp v) <= 130
  /\ 88 <= spo2 v <= 100.
Proof.
  intros v.
  assert (Hvalid : validDraws midDraws)
    by (repeat split; apply half_unitInterval).
  split; [exact Hvalid |].
  exact (proj1 (tick_ranges exactProduct exactProduct_monotone
                  exactProduct_nearest midDraws "00:01" initialState Hvalid)).
Defined.

(** ** Examples for the further properties *)

(** The reading 80, 120/125, 95 is critical by its diastolic pressure
    alone, and none of its cards is red. *)
Lemma cards_show_critical_witness :
  let v := mkVitals 80 (mkBP 120 125) 95 in
  (hr v <> 0 /\ spo2 v <> 0 /\ 0 <= systolic (bp v) /\ spo2 v <= 101)
  /\ isCritical v = true
  /\ isAlarmed (heartRateCard v) = false
  /\ isAlarmed (bloodPressureCard v) = false
  /\ isAlarmed (oxygenCard v) = false
  /\ diastolic (bp v) > 120.
Proof.
  intros v.
  assert (Hhr : hr v <> 0) by discriminate.
  assert (Hspo : spo2 v <> 0) by discriminate.
  assert (Hsys : 0 <= systolic (bp v)) by (cbn; lia).
  assert (Hmax : spo2 v <= 101) by (cbn; lia).
  assert (Hdia : diastolic (bp v) > 120) by (cbn; lia).
  split; [repeat split; assumption |].
  split.
  - apply (cards_show_critical v Hhr Hspo Hsys Hmax).
    right. right. right. exact Hdia.
  - repeat split; exact Hdia.
Defined.

Lemma notificationBody_generic_witness :
  let v := mkVitals 80 (mkBP 120 125) 95 in
  isCritical v = true /\ notificationBody v <> genericBody.
Proof.
  intros v.
  assert (Hcrit : isCritical v = true) by reflexivity.
  split; [exact Hcrit |].
  exact (proj2 (notificationBody_generic v) Hcrit).
Defined.

(** A selection dragged backwards over a history of three readings. *)
Lemma handleZoom_selection_witness :
  let h := [mkEntry placeholderVitals "00:01"; mkEntry placeholderVitals "00:03";
            mkEntry placeholderVitals "00:05"] in
  let s := mkState connected placeholderVitals h false None fullRange
                   "00:05" "00:01" false in
  zoomDomain (fst (handleZoom s)) <> zoomDomain s
  /\ zoomDomain (fst (handleZoom s)) = ("00:01"%string, "00:05"%string)
  /\ refAreaLeft s <> refAreaRight s.
Proof.
  intros h s.
  assert (Hchanged : zoomDomain (fst (handleZoom s)) <> zoomDomain s)
    by (vm_compute; discriminate).
  destruct (handleZoom_selection s) as (_ & _ & _ & _ & Hsel).
  destruct (Hsel Hchanged) as [Hne _].
  split; [exact Hchanged | split; [reflexivity | exact Hne]].
Defined.

Lemma pushHistory_many_witness :
  let e := mkEntry placeholderVitals "00:00" in
  let prev := replicate 29 e in
  let entries := [mkEntry placeholderVitals "00:02"; mkEntry placeholderVitals "00:04"] in
  (length prev <= Z.to_nat MAX_HISTORY_LENGTH)%nat
  /\ foldl pushHistory prev entries = replicate 28 e ++ entries.
Proof.
  intros e prev entries.
  assert (Hcap : (length prev <= Z.to_nat MAX_HISTORY_LENGTH)%nat)
    by (vm_compute; lia).
  split; [exact Hcap |].
  rewrite (pushHistory_many entries prev Hcap). reflexivity.
Defined.

Lemma status_invariant_witness :
  let w := fst (run untranslated exactProduct initialWorld [ClickConnect]) in
  connectionStatus (component w) = connecting
  /\ (0 < connectTimers w)%nat
  /\ vitalsHistory (component w) = [].
Proof.
  intros w.
  assert (Hconnecting : connectionStatus (component w) = connecting) by reflexivity.
  destruct (proj2 (status_invariant untranslated exactProduct [ClickConnect])
              Hconnecting) as (Htimer & Hhistory & _).
  split; [exact Hconnecting | split; [exact Htimer | exact Hhistory]].
Defined.

(** The first critical reading of a connected monitor with the permission
    granted begins an automatic generation and asks for a notification. *)
Lemma generation_begun_witness :
  let w := fst (run untranslated exactProduct initialWorld
                  [PermissionChanges true; ClickConnect; ConnectTimerFires]) in
  let ev := IntervalFires lowDraws "00:01" in
  let prompt := alertPrompt (mkVitals 45 (mkBP 85 55) 88) false in
  In (GenerateContent false prompt) (snd (step untranslated exactProduct w ev))
  /\ connectionStatus (component (fst (step untranslated exactProduct w ev)))
     = connected
  /\ generations (snd (step untranslated exactProduct w ev)) = 1%nat.
Proof.
  intros w ev prompt.
  assert (Hin : In (GenerateContent false prompt)
                   (snd (step untranslated exactProduct w ev)))
    by (right; left; reflexivity).
  destruct (generation_begun untranslated exactProduct w ev false prompt Hin)
    as (Hc & _ & _ & Hone & _).
  split; [exact Hin | split; [exact Hc | exact Hone]].
Defined.

Lemma notification_shown_witness :
  let w := fst (run untranslated exactProduct initialWorld
                  [PermissionChanges true; ClickConnect; ConnectTimerFires]) in
  let ev := IntervalFires lowDraws "00:01" in
  In (ShowNotification notificationTitle "Critical Heart Rate: 45 BPM.")
     (snd (step untranslated exactProduct w ev))
  /\ notificationsGranted (fst (step untranslated exactProduct w ev)) = true.
Proof.
  intros w ev.
  assert (Hin : In (ShowNotification notificationTitle "Critical Heart Rate: 45 BPM.")
                   (snd (step untranslated exactProduct w ev)))
    by (left; reflexivity).
  split; [exact Hin |].
  exact (proj1 (notification_shown untranslated exactProduct w ev _ _ Hin)).
Defined.

(** After a rejected manual alert the error text stays on display through
    further ticks and clicks on the alert button. *)
Lemma alert_message_stays_witness :
  let w := fst (run untranslated exactProduct initialWorld
                  [ClickConnect; ConnectTimerFires; IntervalFires midDraws "00:01";
                   ClickSendAlert; GenerationSettles 0 Rejected]) in
  let evs := [ClickSendAlert; IntervalFires midDraws "00:03"; ClickSendAlert] in
  connectionStatus (component w) = connected
  /\ truthyMessage (alertMessage (component w)) = true
  /\ quiet evs
  /\ shownMessage (component (fst (run untranslated exactProduct w evs)))
     = Some "alertGenerationError"%string
  /\ manualGenerations (snd (run untranslated exactProduct w evs)) = 0%nat.
Proof.
  intros w evs.
  assert (Hc : connectionStatus (component w) = connected) by reflexivity.
  assert (Hmsg : truthyMessage (alertMessage (component w)) = true) by reflexivity.
  assert (Hquiet : quiet evs) by (repeat constructor; discriminate).
  destruct (alert_message_stays untranslated exactProduct evs w Hc Hmsg Hquiet)
    as (Hshown & _ & _ & Hnone).
  split; [exact Hc |]. split; [exact Hmsg |]. split; [exact Hquiet |].
  split; [| exact Hnone].
  rewrite Hshown. reflexivity.
Defined.


Lemma zero_unitInterval : unitInterval 0.
Proof.
  split; [| split; reflexivity || discriminate].
  exists 0, 0. repeat split; try lia; reflexivity.
Defined.

Lemma lowDraws_valid : validDraws lowDraws.
Proof.
  split; [| split; [| split]]; exact zero_unitInterval.
Defined.

Lemma midDraws_valid : validDraws midDraws.
Proof.
  split; [| split; [| split]]; exact half_unitInterval.
Defined.

Lemma readings_in_range_witness :
  let evs := [ClickConnect; ConnectTimerFires; IntervalFires midDraws "00:01";
              IntervalFires lowDraws "00:03"] in
  let s := component (fst (run untranslated exactProduct initialWorld evs)) in
  validTicks evs
  /\ Forall (fun entry => inRange (reading entry)) (vitalsHistory s)
  /\ (isCritical (vitals s) = true
      <-> vitals s <> placeholderVitals /\ outsideThresholds (vitals s)).
Proof.
  intros evs s.
  assert (Hvalid : validTicks evs).
  { unfold validTicks, evs.
    repeat (apply List.Forall_cons;
            [intros d now Heq; try discriminate Heq;
             injection Heq as <- _;
             first [exact midDraws_valid | exact lowDraws_valid] |]).
    apply List.Forall_nil. }
  destruct (readings_in_range untranslated exactProduct exactProduct_monotone
              exactProduct_nearest evs Hvalid) as (_ & Hhistory & Hdetector).
  split; [exact Hvalid | split; [exact Hhistory | exact Hdetector]].
Defined.

Lemma renderPage_routes_witness :
  let a := mkApp "#/vitals" true "" "" in
  let b := mkApp "#/vitals" true "headache" "" in
  renderPage a = renderPage b /\ renderPage a <> Dashboard
  /\ route a = route b
  /\ renderPage a = VitalsMonitor.
Proof.
  intros a b.
  assert (Hsame : renderPage a = renderPage b) by reflexivity.
  assert (Hpage : renderPage a <> Dashboard) by discriminate.
  destruct (renderPage_routes a b) as (Hinj & Halert & _).
  split; [exact Hsame | split; [exact Hpage | split]].
  - exact (Hinj Hsame Hpage).
  - apply Halert. reflexivity.
Defined.

Lemma login_round_trip_witness :
  let b := mkBrowser {[ "medications"%string := "[]"%string ]} "#/vitals" in
  let a := mountApp b in
  "medications"%string <> "authToken"%string
  /\ localStorage (fst (handleLogout b a)) !! "medications"%string
     = localStorage b !! "medications"%string
  /\ isAuthenticated (mountApp (fst (handleLogin b a))) = true.
Proof.
  intros b a.
  assert (Hkey : "medications"%string <> "authToken"%string) by discriminate.
  destruct (login_round_trip b a) as (_ & Hin & _ & _ & _ & Hother & _).
  split; [exact Hkey | split; [exact (proj2 (Hother _ Hkey)) | exact Hin]].
Defined.

